(** * A shallow embedding of the multi-hop reasoning pipeline

    Python floats are modelled by exact rationals [Q]; Python [int] by [Z];
    [str] by [string], one character per code point, for text whose code
    points are below 256. A raised Python exception is a [PyExc] carrying its
    class name and the text [str(e)]. Methods that mutate [self] are written
    as functions that take and return the object's state. *)

From Stdlib Require Import List String Ascii Bool ZArith QArith Qabs Qround Lia Lqa Sorted Permutation.
Import ListNotations.
Open Scope string_scope.

(** ** Python values, exceptions and outcomes *)

Record PyExc := mkExc { exc_class : string; exc_msg : string }.

(** The outcome of a Python call: a value or a raised exception. *)
Inductive Result (A : Type) : Type :=
| Ok (a : A)
| Exc (e : PyExc).
Arguments Ok {A} a.
Arguments Exc {A} e.

Definition is_exc {A} (r : Result A) : bool :=
  match r with Ok _ => false | Exc _ => true end.

(** Values an [eval] of an arithmetic expression can produce. *)
Inductive PyVal :=
| PyInt (z : Z)
| PyFloat (q : Q)
| PyBool (b : bool)
| PyStr (s : string)
| PyNone.

Definition py_numeric (v : PyVal) : option Q :=
  match v with
  | PyInt z => Some (inject_Z z)
  | PyFloat q => Some q
  | PyBool b => Some (if b then 1 else 0)
  | _ => None
  end.

(** Python's [==] on these values: numbers (bool included) compare by value. *)
Definition py_eq (a b : PyVal) : bool :=
  match py_numeric a, py_numeric b with
  | Some x, Some y => Qeq_bool x y
  | None, None =>
      match a, b with
      | PyStr s, PyStr t => String.eqb s t
      | PyNone, PyNone => true
      | _, _ => false
      end
  | _, _ => false
  end.

(** Python's [x < y] on floats. *)
Definition Qlt_bool (x y : Q) : bool := negb (Qle_bool y x).

(** ** Strings: [str.lower], [in], [str.split] *)

(** [str.lower] on a code point below 256: A-Z and the Latin-1 capitals
    U+00C0-U+00DE except U+00D7 move up by 32. *)
Definition lower_char (c : ascii) : ascii :=
  let n := nat_of_ascii c in
  if ((65 <=? n)%nat && (n <=? 90)%nat) || ((192 <=? n)%nat && (n <=? 222)%nat && negb (n =? 215)%nat)
  then ascii_of_nat (n + 32)%nat else c.

Fixpoint lower (s : string) : string :=
  match s with
  | EmptyString => EmptyString
  | String c s' => String (lower_char c) (lower s')
  end.

(** [needle in hay] *)
Fixpoint contains (hay needle : string) : bool :=
  String.prefix needle hay ||
  match hay with
  | EmptyString => false
  | String _ h' => contains h' needle
  end.

(** [str.isspace] on a code point below 256. *)
Definition is_space (c : ascii) : bool :=
  match nat_of_ascii c with
  | 9%nat | 10%nat | 11%nat | 12%nat | 13%nat | 28%nat | 29%nat | 30%nat | 31%nat
  | 32%nat | 133%nat | 160%nat => true
  | _ => false
  end.

(** [s.split()] : split on runs of whitespace, dropping empty fields. *)
Fixpoint split_ws_aux (s : string) (cur : string) : list string :=
  match s with
  | EmptyString => if String.eqb cur "" then [] else [cur]
  | String c s' =>
      if is_space c
      then (if String.eqb cur "" then [] else [cur]) ++ split_ws_aux s' ""
      else split_ws_aux s' (cur ++ String c EmptyString)
  end.

Definition split_ws (s : string) : list string := split_ws_aux s "".

(** Python's prefix slice [l[:k]] for an integer [k]. *)
Definition py_take {A} (l : list A) (k : Z) : list A :=
  if (0 <=? k)%Z then firstn (Z.to_nat k) l
  else firstn (Z.to_nat (Z.of_nat (List.length l) + k)) l.

(** ** Reasoning results and validation results (the [Dict]s of the source) *)

(** The dictionaries built by [Reasoner.perform_multi_hop_reasoning] and the
    fallback dictionary of [MultiHopAgent.process_question]. *)
Inductive ReasoningResult :=
| PathFinding (source_entity target_entity : string) (path_results : list string)
    (confidence : Q)
| EntityLookup (entity : string) (results : list string) (confidence : Q)
| Fallback (answer : string) (confidence : Q).

Definition reasoning_type (r : ReasoningResult) : string :=
  match r with
  | PathFinding _ _ _ _ => "path_finding"
  | EntityLookup _ _ _ => "entity_lookup"
  | Fallback _ _ => "fallback"
  end.

Definition r_confidence (r : ReasoningResult) : Q :=
  match r with
  | PathFinding _ _ _ c | EntityLookup _ _ c | Fallback _ c => c
  end.

(** A reasoning step handed to [validate_reasoning_chain]: one of the
    dictionaries above, a validation dictionary, or any other dictionary
    (with or without a ["confidence"] key). *)
Inductive Step :=
| RStep (r : ReasoningResult)
| VStep (v : ValidationResult)
| DictStep (confidence : option Q)
with ValidationResult :=
| Mathematical (expression : string) (expected_result : PyVal)
    (actual_result : option PyVal) (error : option string)
    (is_valid : bool) (confidence : Q)
| ExternalApi (fact fact_type api_used : string) (is_valid : bool) (confidence : Q)
| CrossValidation (facts sources : list string) (consistency_score : Q)
    (is_valid : bool) (confidence : Q)
| ReasoningChain (reasoning_steps : list Step) (average_confidence : Q)
    (is_consistent : bool) (is_valid : bool) (confidence : Q).

Definition validation_type (v : ValidationResult) : string :=
  match v with
  | Mathematical _ _ _ _ _ _ => "mathematical"
  | ExternalApi _ _ _ _ _ => "external_api"
  | CrossValidation _ _ _ _ _ => "cross_validation"
  | ReasoningChain _ _ _ _ _ => "reasoning_chain"
  end.

Definition v_is_valid (v : ValidationResult) : bool :=
  match v with
  | Mathematical _ _ _ _ b _ | ExternalApi _ _ _ b _
  | CrossValidation _ _ _ b _ | ReasoningChain _ _ _ b _ => b
  end.

Definition v_confidence (v : ValidationResult) : Q :=
  match v with
  | Mathematical _ _ _ _ _ c | ExternalApi _ _ _ _ c
  | CrossValidation _ _ _ _ c | ReasoningChain _ _ _ _ c => c
  end.

(** ["is_consistent"] is present only in chain results. *)
Definition v_is_consistent (v : ValidationResult) : option bool :=
  match v with
  | ReasoningChain _ _ b _ _ => Some b
  | _ => None
  end.

(** [step.get("confidence", d)] *)
Definition step_get_confidence (s : Step) (d : Q) : Q :=
  match s with
  | RStep r => r_confidence r
  | VStep v => v_confidence v
  | DictStep (Some c) => c
  | DictStep None => d
  end.

(** ** Validator (src/validator.py) *)

Module Validator.

Record Validator := mkValidator {
  api_keys : list (string * string);
  validation_history : list ValidationResult }.

(** [Validator.__init__] *)
Definition new (api_keys : option (list (string * string))) : Validator :=
  mkValidator (match api_keys with Some k => k | None => [] end) [].

Definition record (self : Validator) (v : ValidationResult) : Validator :=
  mkValidator (api_keys self) (validation_history self ++ [v]).

(** [validate_mathematical_computation]; [py_eval] is Python's [eval], and
    [is_exception e] tells whether the raised [e] is an instance of
    [Exception]. Only those are caught by [except Exception]; the others
    ([SystemExit], [KeyboardInterrupt], [GeneratorExit], ...) propagate to
    the caller, before anything is appended to the history. *)
Definition validate_mathematical_computation (py_eval : string -> Result PyVal)
    (is_exception : PyExc -> bool) (self : Validator) (expression : string)
    (expected_result : PyVal) : Result ValidationResult * Validator :=
  match py_eval expression with
  | Ok result =>
      let is_valid := py_eq result expected_result in
      let validation_result :=
        Mathematical expression expected_result (Some result) None is_valid
          (if is_valid then 1 else 0) in
      (Ok validation_result, record self validation_result)
  | Exc e =>
      if is_exception e then
        (Ok (Mathematical expression expected_result None (Some (exc_msg e)) false 0), self)
      else (Exc e, self)
  end.

(** [validate_external_fact] *)
Definition validate_external_fact (self : Validator) (fact fact_type : string)
    : ValidationResult * Validator :=
  let validation_result :=
    if String.eqb fact_type "ofac_sanctions" then
      let is_sanctioned := contains (lower fact) "sanctioned" in
      ExternalApi fact fact_type "OFAC" (negb is_sanctioned) (95 # 100)
    else if String.eqb fact_type "sec_filings" then
      ExternalApi fact fact_type "SEC" true (9 # 10)
    else ExternalApi fact fact_type "generic" true (8 # 10) in
  (validation_result, record self validation_result).

Fixpoint dedup_strings (l : list string) : list string :=
  match l with
  | [] => []
  | x :: l' => let r := dedup_strings l' in
               if existsb (String.eqb x) r then r else x :: r
  end.

(** [perform_cross_validation]; [len(set(facts))] is the length of the
    duplicate-free list. *)
Definition perform_cross_validation (self : Validator) (facts sources : list string)
    : ValidationResult * Validator :=
  let validation_score :=
    match facts with
    | [] => 0
    | _ => inject_Z (Z.of_nat (List.length (dedup_strings facts)))
             / inject_Z (Z.of_nat (List.length facts))
    end in
  let validation_result :=
    CrossValidation facts sources validation_score (Qlt_bool (1 # 2) validation_score)
      (if Qle_bool (validation_score + (3 # 10)) 1 then validation_score + (3 # 10) else 1) in
  (validation_result, record self validation_result).

Definition sum_confidence (steps : list Step) : Q :=
  fold_left (fun acc s => acc + step_get_confidence s 0) steps 0.

(** [validate_reasoning_chain] *)
Definition validate_reasoning_chain (self : Validator) (reasoning_steps : list Step)
    : ValidationResult * Validator :=
  let avg_confidence :=
    match reasoning_steps with
    | [] => 0
    | _ => sum_confidence reasoning_steps / inject_Z (Z.of_nat (List.length reasoning_steps))
    end in
  let is_consistent :=
    forallb (fun s => Qlt_bool (7 # 10) (step_get_confidence s 0)) reasoning_steps in
  let validation_result :=
    ReasoningChain reasoning_steps avg_confidence is_consistent
      (is_consistent && Qlt_bool (3 # 4) avg_confidence)
      (if is_consistent then avg_confidence else 0) in
  (validation_result, record self validation_result).

End Validator.

(** ** Retriever (src/retriever.py) *)

Module Retriever.

Section Retriever.

(** [hashlib.md5(doc.encode()).hexdigest()[:8]] *)
Variable md5_prefix8 : string -> string.

Record RetrievedDocument := mkDoc {
  document : string; score : Q; source : string; doc_id : string }.

Record BM25Retriever := mkBM25 { bm25_documents : list string; index_built : bool }.

Record ContrieverRetriever := mkContriever {
  model_path : option string; model_loaded : bool }.

Record TraditionalRetriever := mkTraditional {
  bm25_retriever : BM25Retriever;
  contriever_retriever : ContrieverRetriever;
  documents : list string }.

Definition not_built : PyExc :=
  mkExc "ValueError" "Index not built. Call build_index() first.".
Definition not_loaded : PyExc :=
  mkExc "ValueError" "Model not loaded. Call load_model() first.".

(** [enumerate(docs)] rendered as ranked results with score [base - i*0.1]. *)
Fixpoint rank_from (base : Q) (src : string) (i : nat) (docs : list string)
    : list RetrievedDocument :=
  match docs with
  | [] => []
  | doc :: docs' =>
      mkDoc doc (base - inject_Z (Z.of_nat i) * (1 # 10)) src (md5_prefix8 doc)
        :: rank_from base src (S i) docs'
  end.

(** [BM25Retriever.search] *)
Definition bm25_search (self : BM25Retriever) (query : string) (top_k : Z)
    : Result (list RetrievedDocument) :=
  if negb (index_built self) then Exc not_built
  else Ok (rank_from 1 "bm25" 0 (py_take (bm25_documents self) top_k)).

(** [ContrieverRetriever.search] *)
Definition contriever_search (self : ContrieverRetriever) (query : string)
    (docs : list string) (top_k : Z) : Result (list RetrievedDocument) :=
  if negb (model_loaded self) then Exc not_loaded
  else Ok (rank_from (9 # 10) "contriever" 0 (py_take docs top_k)).

(** [TraditionalRetriever.__init__] *)
Definition new (docs : option (list string)) (contriever_model_path : option string)
    : TraditionalRetriever :=
  let d := match docs with Some l => l | None => [] end in
  mkTraditional (mkBM25 d false) (mkContriever contriever_model_path false) d.

(** [ContrieverRetriever.load_model] *)
Definition load_model (self : ContrieverRetriever) (mp : option string)
    : ContrieverRetriever :=
  mkContriever (match mp with Some p => Some p | None => model_path self end) true.

(** [TraditionalRetriever.initialize] *)
Definition initialize (self : TraditionalRetriever) (docs : list string)
    (contriever_model_path : option string) : TraditionalRetriever :=
  mkTraditional (mkBM25 docs true)
    (load_model (contriever_retriever self) contriever_model_path) docs.

(** The de-duplication loop of [hybrid_search]: keep the first result of
    each [doc_id]; [seen] is the set [seen_docs]. *)
Fixpoint dedup_by_id (seen : list string) (results : list RetrievedDocument)
    : list RetrievedDocument :=
  match results with
  | [] => []
  | r :: rs =>
      if existsb (String.eqb (doc_id r)) seen then dedup_by_id seen rs
      else r :: dedup_by_id (doc_id r :: seen) rs
  end.

(** [list.sort(key=score, reverse=True)] is stable: results of equal score
    keep their input order. The input is inserted from its last element to
    its first, each element in front of every result of smaller or equal
    score, so an earlier element precedes later ones of the same score. *)
Fixpoint insert_desc_front (x : RetrievedDocument) (l : list RetrievedDocument)
    : list RetrievedDocument :=
  match l with
  | [] => [x]
  | y :: l' => if Qle_bool (score y) (score x) then x :: y :: l'
               else y :: insert_desc_front x l'
  end.

Definition sort_by_score_desc (l : list RetrievedDocument) : list RetrievedDocument :=
  fold_right insert_desc_front [] l.

(** [TraditionalRetriever.hybrid_search] *)
Definition hybrid_search (self : TraditionalRetriever) (query : string) (top_k : Z)
    : Result (list RetrievedDocument) :=
  match bm25_search (bm25_retriever self) query top_k with
  | Exc e => Exc e
  | Ok bm25_results =>
      match contriever_search (contriever_retriever self) query (documents self) top_k with
      | Exc e => Exc e
      | Ok contriever_results =>
          let combined_results := (bm25_results ++ contriever_results)%list in
          let unique_results := dedup_by_id [] combined_results in
          Ok (py_take (sort_by_score_desc unique_results) top_k)
      end
  end.

End Retriever.

(** Calls on a [TraditionalRetriever]: [initialize] replaces the state,
    [hybrid_search] leaves it unchanged. *)
Inductive RetrieverOp :=
| OpInitialize (docs : list string) (contriever_model_path : option string)
| OpHybridSearch (query : string) (top_k : Z).

Definition is_initialize (op : RetrieverOp) : bool :=
  match op with OpInitialize _ _ => true | OpHybridSearch _ _ => false end.

Definition apply_op (self : TraditionalRetriever) (op : RetrieverOp) : TraditionalRetriever :=
  match op with
  | OpInitialize docs mp => initialize self docs mp
  | OpHybridSearch _ _ => self
  end.

Definition run (self : TraditionalRetriever) (ops : list RetrieverOp) : TraditionalRetriever :=
  fold_left apply_op ops self.

End Retriever.

(** ** Planner (src/planner_agent.py) *)

Module Planner.

Record SubTask := mkTask {
  task_id : Z; task_type : string; query : string; description : string;
  depends_on : option (list Z) }.

Record ParsedQuestion := mkParsed {
  original_question : string; entities : list string; relations : list string;
  question_type : string }.

Record PlannerAgent := mkPlanner { task_history : list (string * list SubTask) }.

Definition new : PlannerAgent := mkPlanner [].

(** [_extract_entities] and [_extract_relations] are placeholders. *)
Definition extract_entities (question : string) : list string := [].
Definition extract_relations (question : string) : list string := [].

(** [_classify_question_type] *)
Definition classify_question_type (question : string) : string :=
  if contains (lower question) "who" then "entity_identification"
  else if contains (lower question) "what" then "fact_retrieval"
  else if contains (lower question) "how" || contains (lower question) "why"
  then "causal_reasoning"
  else "general".

(** [parse_question] *)
Definition parse_question (question : string) : ParsedQuestion :=
  mkParsed question (extract_entities question) (extract_relations question)
    (classify_question_type question).

(** [decompose_task] *)
Definition decompose_task (self : PlannerAgent) (parsed_question : ParsedQuestion)
    : list SubTask * PlannerAgent :=
  let q := original_question parsed_question in
  let sub_tasks :=
    if String.eqb (question_type parsed_question) "entity_identification" then
      [mkTask 1 "entity_search" q "Find the main entity mentioned in the question" None;
       mkTask 2 "relation_search" "What are the key facts about the entity found in task 1?"
         "Find relationships and facts about the identified entity" (Some [1%Z])]
    else if String.eqb (question_type parsed_question) "fact_retrieval" then
      [mkTask 1 "initial_search" q "Initial search for the main fact" None;
       mkTask 2 "verification_search" "Verify the fact found in task 1 from multiple sources"
         "Cross-verify the retrieved fact" (Some [1%Z])]
    else
      [mkTask 1 "comprehensive_search" q "Comprehensive search for the question" None] in
  (sub_tasks, mkPlanner (task_history self ++ [(q, sub_tasks)])).

End Planner.

(** ** Reasoner (src/reasoner.py) *)

Module Reasoner.

Record Reasoner := mkReasoner { neo4j_uri : string; graph_connected : bool }.

Definition new (uri : string) : Reasoner := mkReasoner uri false.

(** [connect_to_graph] *)
Definition connect_to_graph (self : Reasoner) : Reasoner := mkReasoner (neo4j_uri self) true.

Fixpoint digits_of_nat (fuel n : nat) (acc : string) : string :=
  match fuel with
  | O => acc
  | S fuel' =>
      let acc' := String (ascii_of_nat (48 + n mod 10)) acc in
      if (n <? 10)%nat then acc' else digits_of_nat fuel' (n / 10) acc'
  end.

(** [str(n)] for a non-negative [int]. *)
Definition show_nat (n : nat) : string := digits_of_nat (S n) n "".

Definition nl : string := String (ascii_of_nat 10) "".

(** [execute_cypher_query]: the ["result"] field of each returned row. *)
Definition execute_cypher_query (self : Reasoner) (query : string) : Result (list string) :=
  if negb (graph_connected self) then
    Exc (mkExc "ValueError" "Not connected to graph. Call connect_to_graph() first.")
  else if contains query "Albert Einstein" && contains query "Princeton" then
    Ok ["Albert Einstein worked at Princeton University"]
  else if contains query "Marie Curie" && contains query "Radium" then
    Ok ["Marie Curie discovered Radium"]
  else Ok ["Path found between entities"].

Definition ensure_connected (self : Reasoner) : Reasoner :=
  if graph_connected self then self else connect_to_graph self.

(** [find_path_between_entities] *)
Definition find_path_between_entities (self : Reasoner) (source_entity target_entity : string)
    (max_hops : nat) : Result (list string) * Reasoner :=
  let self := ensure_connected self in
  let cypher_query :=
    nl ++ "        MATCH path = shortestPath((s {name: '" ++ source_entity
    ++ "'})-[*1.." ++ show_nat max_hops ++ "]-(t {name: '" ++ target_entity ++ "'}))"
    ++ nl ++ "        RETURN path" ++ nl ++ "        " in
  (execute_cypher_query self cypher_query, self).

Definition index_error : PyExc := mkExc "IndexError" "list index out of range".

(** [perform_multi_hop_reasoning]; [entities[0]] on an empty list raises. *)
Definition perform_multi_hop_reasoning (self : Reasoner) (entities relations : list string)
    : Result ReasoningResult * Reasoner :=
  let self := ensure_connected self in
  if (2 <=? List.length entities)%nat then
    let source := hd "" entities in
    let target := last entities "" in
    let (path_results, self) := find_path_between_entities self source target 3 in
    match path_results with
    | Exc e => (Exc e, self)
    | Ok rows => (Ok (PathFinding source target rows (85 # 100)), self)
    end
  else
    match entities with
    | [] => (Exc index_error, self)
    | e0 :: _ =>
        let cypher_query := "MATCH (e {name: '" ++ e0 ++ "'}) RETURN e" in
        match execute_cypher_query self cypher_query with
        | Exc e => (Exc e, self)
        | Ok results => (Ok (EntityLookup e0 results (9 # 10)), self)
        end
    end.

End Reasoner.

(** ** Graph builder (src/graph_builder.py) *)

Module GraphBuilder.

Record GraphBuilder := mkGraphBuilder { neo4j_uri : string; graph_initialized : bool }.

Definition new (uri : string) : GraphBuilder := mkGraphBuilder uri false.

Definition initialize_graph (self : GraphBuilder) : GraphBuilder :=
  mkGraphBuilder (neo4j_uri self) true.

Definition Triple : Type := string * string * string.

(** [extract_triples] *)
Definition extract_triples (text : string) : list Triple :=
  if contains text "Albert Einstein" then
    [("Albert Einstein", "born_in", "Ulm");
     ("Albert Einstein", "worked_at", "Princeton University");
     ("Albert Einstein", "developed", "Theory of Relativity")]
  else if contains text "Marie Curie" then
    [("Marie Curie", "born_in", "Warsaw");
     ("Marie Curie", "worked_at", "Sorbonne University");
     ("Marie Curie", "discovered", "Radium")]
  else
    let words := split_ws text in
    if (3 <=? List.length words)%nat then [(hd "" words, "related_to", last words "")]
    else [].

(** [store_triples]: the MERGE statements are only printed. *)
Definition store_triples (self : GraphBuilder) (triples : list Triple) : Result unit :=
  if negb (graph_initialized self) then
    Exc (mkExc "ValueError" "Graph not initialized. Call initialize_graph() first.")
  else Ok tt.

(** [build_graph_from_documents] *)
Definition build_graph_from_documents (self : GraphBuilder) (documents : list string)
    : Result (list Triple) * GraphBuilder :=
  let self := if graph_initialized self then self else initialize_graph self in
  let all_triples := flat_map extract_triples documents in
  match store_triples self all_triples with
  | Exc e => (Exc e, self)
  | Ok _ => (Ok all_triples, self)
  end.

End GraphBuilder.

(** ** Executor (src/executor.py) *)

Module Executor.

Record Executor := mkExecutor { executor_initialized : bool }.

Definition new : Executor := mkExecutor false.

Definition initialize_executor (self : Executor) : Executor := mkExecutor true.

(** The dictionaries returned by [execute_complex_task]. *)
Inductive ExecutionResult :=
| Browsed (url : string)
| OcrDone (image_url : string)
| Generic (task_description : string) (required_tools : list string).

(** [execute_complex_task] *)
Definition execute_complex_task (self : Executor) (task_description : string)
    (required_tools : list string) : ExecutionResult * Executor :=
  let self := initialize_executor self in
  let d := lower task_description in
  let words := split_ws task_description in
  if contains d "browse" || contains d "web" then
    (Browsed (match words with [] => "https://example.com" | _ => last words "" end), self)
  else if contains d "ocr" || contains d "image" then
    (OcrDone (match words with [] => "https://example.com/image.jpg"
                                | _ => last words "" end), self)
  else (Generic task_description required_tools, self).

End Executor.

(** ** Answer generator (src/answer_generator.py) *)

Module AnswerGenerator.

(** An answer dictionary. The clock-valued keys ["generated_at"] and
    ["processing_time"] are not modelled; ["validation_status"] is present
    on synthesized answers and ["error"] on error answers. *)
Record Answer := mkAnswer {
  question_id : string; answer : string; answer_type : string; confidence : Q;
  evidence : list string; reasoning_steps : list Step;
  validation_status : option string; error : option string }.

(** Python's [round(x, 3)]: to the nearest multiple of 0.001, ties to even. *)
Definition py_round3 (x : Q) : Q :=
  let y := x * 1000 in
  let fl := (Qnum y / Zpos (Qden y))%Z in
  let frac := y - inject_Z fl in
  let n :=
    if Qlt_bool frac (1 # 2) then fl
    else if Qlt_bool (1 # 2) frac then (fl + 1)%Z
    else if Z.even fl then fl else (fl + 1)%Z in
  inject_Z n / 1000.

(** [generate_answer]; the selected template is not used by the source. *)
Definition generate_answer (question_id answer question_type : string) (confidence : Q)
    (evidence : list string) (reasoning_steps : list Step) : Answer :=
  mkAnswer question_id answer question_type (py_round3 confidence) evidence reasoning_steps
    (Some (if Qlt_bool (7 # 10) confidence then "validated" else "needs_review")) None.

End AnswerGenerator.

(** ** Orchestrator (src/main_agent.py) *)

Module Agent.

Import Planner AnswerGenerator.

Record Config := mkConfig {
  cfg_neo4j_uri : option string;
  cfg_contriever_model_path : option string;
  cfg_api_keys : option (list (string * string));
  cfg_top_k_retrieval : option Z }.

(** [_default_config] *)
Definition default_config : Config :=
  mkConfig (Some "bolt://localhost:7687") None (Some []) (Some 5%Z).

Record Components := mkComponents {
  planner : PlannerAgent;
  retriever : Retriever.TraditionalRetriever;
  graph_builder : GraphBuilder.GraphBuilder;
  reasoner : Reasoner.Reasoner;
  validator : Validator.Validator;
  executor : Executor.Executor }.

Record MultiHopAgent := mkAgent {
  config : Config;
  components : option Components;
  system_initialized : bool }.

(** [MultiHopAgent.__init__] *)
Definition new (cfg : option Config) : MultiHopAgent :=
  mkAgent (match cfg with Some c => c | None => default_config end) None false.

Definition get_or {A} (o : option A) (d : A) : A :=
  match o with Some a => a | None => d end.

(** [initialize_system]; [if documents:] tests for a non-empty list. *)
Definition initialize_system (self : MultiHopAgent) (documents : option (list string))
    : MultiHopAgent :=
  let cfg := config self in
  let uri := get_or (cfg_neo4j_uri cfg) "bolt://localhost:7687" in
  let r := Retriever.new None None in
  let r := match documents with
           | Some ((_ :: _) as docs) => Retriever.initialize r docs (cfg_contriever_model_path cfg)
           | _ => r
           end in
  let c := mkComponents Planner.new r
             (GraphBuilder.initialize_graph (GraphBuilder.new uri))
             (Reasoner.connect_to_graph (Reasoner.new uri))
             (Validator.new (Some (get_or (cfg_api_keys cfg) [])))
             (Executor.initialize_executor Executor.new) in
  mkAgent cfg (Some c) true.

(** The body of the [try] block runs in a state and exception monad over the
    components; a raised exception keeps the mutations made before it. *)
Definition M (A : Type) : Type := Components -> Result A * Components.

Definition ret {A} (a : A) : M A := fun c => (Ok a, c).

Definition bind {A B} (m : M A) (f : A -> M B) : M B :=
  fun c => match m c with
           | (Ok a, c') => f a c'
           | (Exc e, c') => (Exc e, c')
           end.

Notation "x <- m ;; k" := (bind m (fun x => k))
  (at level 61, m at next level, right associativity).

Definition with_planner (p : PlannerAgent) (c : Components) : Components :=
  mkComponents p (retriever c) (graph_builder c) (reasoner c) (validator c) (executor c).
Definition with_graph_builder (g : GraphBuilder.GraphBuilder) (c : Components) : Components :=
  mkComponents (planner c) (retriever c) g (reasoner c) (validator c) (executor c).
Definition with_reasoner (r : Reasoner.Reasoner) (c : Components) : Components :=
  mkComponents (planner c) (retriever c) (graph_builder c) r (validator c) (executor c).
Definition with_validator (v : Validator.Validator) (c : Components) : Components :=
  mkComponents (planner c) (retriever c) (graph_builder c) (reasoner c) v (executor c).
Definition with_executor (x : Executor.Executor) (c : Components) : Components :=
  mkComponents (planner c) (retriever c) (graph_builder c) (reasoner c) (validator c) x.

(** Remove duplicates while preserving order. *)
Fixpoint dedup_docs (seen : list string) (docs : list string) : list string :=
  match docs with
  | [] => []
  | d :: ds => if existsb (String.eqb d) seen then dedup_docs seen ds
               else d :: dedup_docs (d :: seen) ds
  end.

Definition complex_task_types : list string := ["web_browsing"; "form_filling"; "ocr"].

Definition fallback_result : ReasoningResult :=
  Fallback "No entities found, using direct retrieval" (6 # 10).

Section Pipeline.

Variable md5_prefix8 : string -> string.
(** [str(...)] of a reasoning dictionary. *)
Variable repr_reasoning : ReasoningResult -> string.

Definition top_k_retrieval (cfg : Config) : Z := get_or (cfg_top_k_retrieval cfg) 5%Z.

(** Step 2: [hybrid_search] for each sub-task, extending the document list. *)
Fixpoint retrieve_all (top_k : Z) (tasks : list SubTask) : M (list string) :=
  match tasks with
  | [] => ret []
  | t :: ts =>
      fun c =>
        match Retriever.hybrid_search md5_prefix8 (retriever c) (query t) top_k with
        | Exc e => (Exc e, c)
        | Ok results =>
            bind (retrieve_all top_k ts)
              (fun rest => ret (map Retriever.document results ++ rest)%list) c
        end
  end.

(** Step 4: the reasoner, or the fallback result when no entity was parsed. *)
Definition reasoning_stage (parsed : ParsedQuestion) : M ReasoningResult :=
  match entities parsed with
  | _ :: _ =>
      fun c =>
        let (r, rs) := Reasoner.perform_multi_hop_reasoning (reasoner c)
                         (entities parsed) (relations parsed) in
        (r, with_reasoner rs c)
  | [] => ret fallback_result
  end.

(** Step 6: the first sub-task of a complex type is executed. *)
Definition execution_stage (tasks : list SubTask) : M (option Executor.ExecutionResult) :=
  match find (fun t => existsb (String.eqb (task_type t)) complex_task_types) tasks with
  | Some t =>
      fun c => let (x, ex) := Executor.execute_complex_task (executor c) (description t)
                                ["web_browser"] in
               (Ok (Some x), with_executor ex c)
  | None => ret None
  end.

(** The body of the [try] block of [process_question]. *)
Definition pipeline (cfg : Config) (question question_id : string) : M Answer :=
  let parsed_question := parse_question question in
  sub_tasks <- (fun c => let (ts, p) := decompose_task (planner c) parsed_question in
                         (Ok ts, with_planner p c)) ;;
  all_retrieved_docs <- retrieve_all (top_k_retrieval cfg) sub_tasks ;;
  let unique_docs := dedup_docs [] all_retrieved_docs in
  triples <- (fun c => let (r, g) := GraphBuilder.build_graph_from_documents
                                       (graph_builder c) unique_docs in
                       (r, with_graph_builder g c)) ;;
  reasoning_result <- reasoning_stage parsed_question ;;
  validation_result <- (fun c => let (v, vs) := Validator.validate_reasoning_chain
                                                  (validator c) [RStep reasoning_result] in
                                 (Ok v, with_validator vs c)) ;;
  execution_result <- execution_stage sub_tasks ;;
  ret (generate_answer question_id (repr_reasoning reasoning_result)
         (question_type parsed_question)
         (r_confidence reasoning_result * v_confidence validation_result)
         (firstn 3 unique_docs)
         [RStep reasoning_result; VStep validation_result]).

(** The [except Exception] branch. *)
Definition error_answer (question_id : string) (e : PyExc) : Answer :=
  mkAnswer question_id ("Error: " ++ exc_msg e) "error" 0 [] [] None (Some (exc_msg e)).

Definition not_initialized : PyExc :=
  mkExc "ValueError" "System not initialized. Call initialize_system() first.".

Definition no_planner : PyExc :=
  mkExc "AttributeError" "'NoneType' object has no attribute 'parse_question'".

(** [process_question] *)
Definition process_question (self : MultiHopAgent) (question question_id : string)
    : Result Answer * MultiHopAgent :=
  if negb (system_initialized self) then (Exc not_initialized, self)
  else
    match components self with
    | None => (Ok (error_answer question_id no_planner), self)
    | Some c =>
        let (r, c') := pipeline (config self) question question_id c in
        let self' := mkAgent (config self) (Some c') true in
        match r with
        | Ok a => (Ok a, self')
        | Exc e => (Ok (error_answer question_id e), self')
        end
    end.

(** An entry of the batch: [question_data.get("question", "")] and
    [question_data.get("id", "unknown")]. *)
Record QuestionData := mkQuestionData { qd_question : option string; qd_id : option string }.

(** [process_questions_batch]: an exception of [process_question] leaves the
    loop and reaches the caller. *)
Fixpoint process_questions_batch (self : MultiHopAgent) (questions : list QuestionData)
    : Result (list Answer) * MultiHopAgent :=
  match questions with
  | [] => (Ok [], self)
  | qd :: qs =>
      match process_question self (get_or (qd_question qd) "") (get_or (qd_id qd) "unknown") with
      | (Exc e, self') => (Exc e, self')
      | (Ok result, self') =>
          match process_questions_batch self' qs with
          | (Ok results, self'') => (Ok (result :: results), self'')
          | (Exc e, self'') => (Exc e, self'')
          end
      end
  end.

End Pipeline.

End Agent.

(** ** Spec-side notions and concrete inputs *)

(** The arithmetic mean of a non-empty list of confidences. *)
Definition mean (l : list Q) : Q :=
  fold_right Qplus 0 l / inject_Z (Z.of_nat (List.length l)).

(** "[a] comes before [b] in descending score order". *)
Definition score_ge (a b : Retriever.RetrievedDocument) : Prop :=
  Retriever.score b <= Retriever.score a.

(** Case-insensitive substring test: [q] has a factor that lowercases to [p]. *)
Definition ci_sub (p q : string) : Prop :=
  exists pre w suf, q = pre ++ w ++ suf /\ lower w = p.

(** A step's confidence as the validator reads it ([.get("confidence", 0.0)]). *)
Definition conf (s : Step) : Q := step_get_confidence s 0.

(** An orchestrator initialized with a small corpus, and one initialized
    without documents (its retriever is then never initialized). *)
Definition example_agent : Agent.MultiHopAgent :=
  Agent.initialize_system (Agent.new None)
    (Some ["Albert Einstein worked at Princeton University"; "Marie Curie discovered Radium"]).

Definition agent_without_documents : Agent.MultiHopAgent :=
  Agent.initialize_system (Agent.new None) None.

(** A fragment of Python's [eval]: sums of decimal integer literals, with
    spaces around the operands, and [exit()], which raises [SystemExit]
    ([str] of it is "None"). Every other string is reported as the
    [SyntaxError] that Python gives for ["1 +"]; it is used here only at
    inputs of the fragment and at ["1 +"]. *)
Fixpoint parse_digits (s : string) (acc : option Z) : option Z :=
  match s with
  | EmptyString => acc
  | String c s' =>
      let n := nat_of_ascii c in
      if (48 <=? n)%nat && (n <=? 57)%nat then
        parse_digits s' (Some (10 * match acc with Some a => a | None => 0 end
                                + Z.of_nat (n - 48))%Z)
      else None
  end.

Fixpoint split_plus (s : string) (cur : string) : list string :=
  match s with
  | EmptyString => [cur]
  | String c s' =>
      if Ascii.eqb c "+"%char then cur :: split_plus s' ""
      else split_plus s' (cur ++ String c EmptyString)
  end.

(** The words of a string separated by the space character. *)
Fixpoint split_spaces (s : string) (cur : string) : list string :=
  match s with
  | EmptyString => [cur]
  | String c s' =>
      if Ascii.eqb c " "%char then cur :: split_spaces s' ""
      else split_spaces s' (cur ++ String c EmptyString)
  end.

Definition eval_sum (expression : string) : Result PyVal :=
  let operands := map (fun t => match filter (fun w => negb (String.eqb w ""))
                                         (split_spaces t "") with
                                  | [w] => parse_digits w None
                                  | _ => None
                                  end) (split_plus expression "") in
  if String.eqb expression "exit()" then Exc (mkExc "SystemExit" "None")
  else if forallb (fun o => match o with Some _ => true | None => false end) operands
  then Ok (PyInt (fold_right (fun o acc => match o with Some z => z + acc | None => acc end)%Z
                    0%Z operands))
  else Exc (mkExc "SyntaxError" "invalid syntax (<string>, line 1)").

(** [isinstance(e, Exception)] for the built-in exception classes: the
    classes that derive from [BaseException] only are not. *)
Definition py_is_exception (e : PyExc) : bool :=
  negb (existsb (String.eqb (exc_class e))
          ["SystemExit"; "KeyboardInterrupt"; "GeneratorExit"; "BaseExceptionGroup"]).

Lemma Qlt_bool_iff (x y : Q) : Qlt_bool x y = true <-> x < y.
Proof.
  unfold Qlt_bool. rewrite negb_true_iff. split; intro H.
  - apply Qnot_le_lt. intro H'. apply Qle_bool_iff in H'. congruence.
  - destruct (Qle_bool y x) eqn:E; [|reflexivity].
    apply Qle_bool_iff in E. exfalso. apply (Qlt_not_le x y); assumption.
Qed.

Lemma Qlt_bool_compat (a b c : Q) : b == c -> Qlt_bool a b = Qlt_bool a c.
Proof.
  intro H. destruct (Qlt_bool a b) eqn:E1, (Qlt_bool a c) eqn:E2; try reflexivity.
  - apply Qlt_bool_iff in E1. rewrite H in E1. apply Qlt_bool_iff in E1. congruence.
  - apply Qlt_bool_iff in E2. rewrite <- H in E2. apply Qlt_bool_iff in E2. congruence.
Qed.

Lemma forallb_Qlt_bool_iff (t : Q) (l : list Step) :
  forallb (fun s => Qlt_bool t (step_get_confidence s 0)) l = true
  <-> Forall (fun s => t < conf s) l.
Proof.
  rewrite forallb_forall, Forall_forall. unfold conf.
  split; intros H x Hx; apply Qlt_bool_iff, H; assumption.
Qed.

Lemma fold_left_sum_shift (l : list Step) (a : Q) :
  fold_left (fun acc s => acc + step_get_confidence s 0) l a
  == a + fold_right Qplus 0 (map conf l).
Proof.
  revert a. induction l as [|s l IH]; intro a; simpl.
  - ring.
  - rewrite IH. unfold conf. ring.
Qed.

Lemma chain_average_mean (l : list Step) :
  Validator.sum_confidence l / inject_Z (Z.of_nat (List.length l)) == mean (map conf l).
Proof.
  unfold Validator.sum_confidence, mean. rewrite length_map, fold_left_sum_shift.
  apply Qmult_comp; [ring | reflexivity].
Qed.

(** C1: the chain-level check. Consistency is "every step's confidence
    exceeds 0.7"; validity is consistency and a mean above 0.75; the
    reported confidence is the mean when consistent and 0.0 otherwise; the
    empty chain reports confidence 0.0 and is not valid. *)
Theorem validate_reasoning_chain_correct (v : Validator.Validator) (steps : list Step) :
  let res := fst (Validator.validate_reasoning_chain v steps) in
  (v_is_consistent res = Some true <-> Forall (fun s => 7 # 10 < conf s) steps) /\
  (steps <> [] ->
     (v_is_valid res = true <->
        v_is_consistent res = Some true /\ 3 # 4 < mean (map conf steps))) /\
  (Forall (fun s => 7 # 10 < conf s) steps -> steps <> [] ->
     v_confidence res == mean (map conf steps)) /\
  (~ Forall (fun s => 7 # 10 < conf s) steps -> v_confidence res == 0) /\
  (steps = [] -> v_confidence res == 0 /\ v_is_valid res = false).
Proof.
  cbn zeta. unfold Validator.validate_reasoning_chain; simpl fst.
  unfold v_is_consistent, v_is_valid, v_confidence.
  pose proof (forallb_Qlt_bool_iff (7 # 10) steps) as Hall.
  split; [|split; [|split; [|split]]].
  - split; intro H.
    + apply Hall. congruence.
    + f_equal. apply Hall. assumption.
  - intro Hne. destruct steps as [|s l]; [congruence|].
    rewrite andb_true_iff, (Qlt_bool_compat _ _ _ (chain_average_mean (s :: l))),
      Qlt_bool_iff.
    split; intros [H1 H2]; split; try assumption; congruence.
  - intros Hf Hne. apply Hall in Hf. rewrite Hf.
    destruct steps as [|s l]; [congruence|]. apply chain_average_mean.
  - intro Hn. destruct (forallb _ steps) eqn:E.
    + exfalso. apply Hn, Hall. reflexivity.
    + reflexivity.
  - intros ->. simpl. split; reflexivity.
Qed.

(** C5, as stated, fails on the empty chain: [all([])] is true in Python, so
    the empty chain, whose steps are vacuously all at most 0.7, is reported
    consistent. *)
Lemma validate_reasoning_chain_weak_counterexample :
  ~ (forall (v : Validator.Validator) (steps : list Step),
       Forall (fun s => conf s <= 7 # 10) steps ->
       v_is_consistent (fst (Validator.validate_reasoning_chain v steps)) = Some false /\
       v_confidence (fst (Validator.validate_reasoning_chain v steps)) == 0).
Proof.
  intro H. destruct (H (Validator.new None) [] (Forall_nil _)) as [H1 _].
  vm_compute in H1. discriminate H1.
Qed.

(** C5 (amended): for a chain whose every step has confidence at most 0.7,
    the reported confidence is 0.0; a non-empty such chain is reported
    inconsistent, the empty chain is reported consistent. *)
Theorem validate_reasoning_chain_weak (v : Validator.Validator) (steps : list Step)
    (Hweak : Forall (fun s => conf s <= 7 # 10) steps) :
  let res := fst (Validator.validate_reasoning_chain v steps) in
  v_confidence res == 0 /\
  (steps <> [] -> v_is_consistent res = Some false) /\
  (steps = [] -> v_is_consistent res = Some true).
Proof.
  cbn zeta. unfold Validator.validate_reasoning_chain; simpl fst.
  unfold v_is_consistent, v_confidence.
  destruct steps as [|s l].
  - simpl. split; [reflexivity|]. split; [congruence|reflexivity].
  - assert (Hf : forallb (fun s => Qlt_bool (7 # 10) (step_get_confidence s 0)) (s :: l)
                 = false).
    { simpl. inversion Hweak as [|? ? Hs _]; subst.
      destruct (Qlt_bool (7 # 10) (step_get_confidence s 0)) eqn:E; [|reflexivity].
      apply Qlt_bool_iff in E. unfold conf in Hs.
      exfalso. apply (Qlt_not_le _ _ E Hs). }
    rewrite Hf. split; [reflexivity|]. split; [reflexivity|congruence].
Qed.

Lemma validate_reasoning_chain_weak_witness :
  Forall (fun s => conf s <= 7 # 10) [DictStep (Some (1 # 2))] /\
  v_confidence (fst (Validator.validate_reasoning_chain (Validator.new None)
                        [DictStep (Some (1 # 2))])) == 0.
Proof.
  assert (H : Forall (fun s => conf s <= 7 # 10) [DictStep (Some (1 # 2))]).
  { constructor; [unfold conf; simpl; apply Qle_bool_iff; reflexivity | constructor]. }
  split; [exact H|].
  exact (proj1 (validate_reasoning_chain_weak (Validator.new None) _ H)).
Defined.



(** C10: the exception branch of [validate_mathematical_computation]
    returns without appending to [validation_history]; the success branch
    appends one result. On the malformed expression ["1 +"] the history of a
    fresh validator stays empty, while ["1 + 1"] grows it by one. *)
Theorem validate_mathematical_computation_history_on_error :
  eval_sum "1 +" = Exc (mkExc "SyntaxError" "invalid syntax (<string>, line 1)") /\
  py_is_exception (mkExc "SyntaxError" "invalid syntax (<string>, line 1)") = true /\
  List.length (Validator.validation_history
    (snd (Validator.validate_mathematical_computation eval_sum py_is_exception
            (Validator.new None) "1 +" (PyInt 2)))) = 0%nat /\
  List.length (Validator.validation_history
    (snd (Validator.validate_mathematical_computation eval_sum py_is_exception
            (Validator.new None) "1 + 1" (PyInt 2)))) = 1%nat.
Proof. vm_compute. repeat split. Qed.

(** The three other validation operations append exactly one result. *)
Lemma validate_others_append_one (v : Validator.Validator) (a b : string)
    (facts sources : list string) (steps : list Step) :
  List.length (Validator.validation_history (snd (Validator.validate_external_fact v a b)))
    = S (List.length (Validator.validation_history v)) /\
  List.length (Validator.validation_history
                 (snd (Validator.perform_cross_validation v facts sources)))
    = S (List.length (Validator.validation_history v)) /\
  List.length (Validator.validation_history
                 (snd (Validator.validate_reasoning_chain v steps)))
    = S (List.length (Validator.validation_history v)).
Proof.
  unfold Validator.validate_external_fact, Validator.perform_cross_validation,
    Validator.validate_reasoning_chain, Validator.record; simpl.
  rewrite !length_app; simpl; repeat split; lia.
Qed.

Lemma prefix_iff (n h : string) : String.prefix n h = true <-> exists suf, h = n ++ suf.
Proof.
  revert h. induction n as [|a n IH]; intro h; simpl.
  - split; [intros _; exists h; reflexivity | intros _; destruct h; reflexivity].
  - destruct h as [|b h].
    + split; [discriminate | intros [suf H]; discriminate H].
    + simpl. destruct (ascii_dec a b) as [Heq|Hne].
      * subst b. rewrite IH. split; intros [suf H]; exists suf; [subst; reflexivity|].
        injection H as H. exact H.
      * split; [discriminate|]. intros [suf H]. injection H as H _. congruence.
Qed.

Lemma contains_iff (h n : string) :
  contains h n = true <-> exists pre suf, h = pre ++ n ++ suf.
Proof.
  induction h as [|c h IH].
  - change (contains "" n) with (String.prefix n "" || false).
    rewrite orb_false_r, prefix_iff. split.
    + intros [suf H]. exists "", suf. exact H.
    + intros [pre [suf H]]. destruct pre; [|discriminate H]. exists suf. exact H.
  - change (contains (String c h) n) with (String.prefix n (String c h) || contains h n).
    rewrite orb_true_iff, prefix_iff, IH. split.
    + intros [[suf H]|[pre [suf H]]].
      * exists "", suf. exact H.
      * exists (String c pre), suf. rewrite H. reflexivity.
    + intros [pre [suf H]]. destruct pre as [|c' pre].
      * left. exists suf. exact H.
      * right. injection H as -> H. exists pre, suf. exact H.
Qed.

Lemma lower_app (a b : string) : lower (a ++ b) = lower a ++ lower b.
Proof. induction a as [|c a IH]; simpl; [reflexivity | rewrite IH; reflexivity]. Qed.

Lemma lower_split (q x y : string) :
  lower q = x ++ y -> exists qx qy, q = qx ++ qy /\ lower qx = x /\ lower qy = y.
Proof.
  revert q. induction x as [|c x IH]; intros q H.
  - exists "", q. split; [reflexivity | split; [reflexivity | exact H]].
  - destruct q as [|c' q]; [discriminate H|]. simpl in H. injection H as Hc H.
    destruct (IH q H) as [qx [qy [-> [Hx Hy]]]].
    exists (String c' qx), qy. simpl. rewrite Hc, Hx. auto.
Qed.

Lemma ci_sub_iff (p q : string) : contains (lower q) p = true <-> ci_sub p q.
Proof.
  rewrite contains_iff. unfold ci_sub. split.
  - intros [pre' [suf' H]].
    destruct (lower_split q pre' (p ++ suf') H) as [qa [qb [-> [_ Hb]]]].
    destruct (lower_split qb p suf' Hb) as [w [qs [-> [Hw _]]]].
    exists qa, w, qs. auto.
  - intros [pre [w [suf [-> Hw]]]].
    exists (lower pre), (lower suf). rewrite !lower_app, Hw. reflexivity.
Qed.

(** C6: classification is the first matching rule over case-insensitive
    substrings ("who", then "what", then "how" or "why", else general);
    entity-identification and fact-retrieval questions become two sub-tasks,
    task 2 depending on task 1; every other question becomes one sub-task
    without dependency. *)
Theorem classify_and_decompose (q : string) (p : Planner.PlannerAgent) :
  let t := Planner.classify_question_type q in
  let tasks := fst (Planner.decompose_task p (Planner.parse_question q)) in
  (t = "entity_identification" <-> ci_sub "who" q) /\
  (t = "fact_retrieval" <-> ~ ci_sub "who" q /\ ci_sub "what" q) /\
  (t = "causal_reasoning" <->
     ~ ci_sub "who" q /\ ~ ci_sub "what" q /\ (ci_sub "how" q \/ ci_sub "why" q)) /\
  (t = "general" <->
     ~ ci_sub "who" q /\ ~ ci_sub "what" q /\ ~ ci_sub "how" q /\ ~ ci_sub "why" q) /\
  ((t = "entity_identification" \/ t = "fact_retrieval") ->
     exists t1 t2, tasks = [t1; t2] /\ Planner.task_id t1 = 1%Z /\ Planner.task_id t2 = 2%Z /\
       Planner.depends_on t1 = None /\ Planner.depends_on t2 = Some [1%Z]) /\
  (t <> "entity_identification" -> t <> "fact_retrieval" ->
     exists t1, tasks = [t1] /\ Planner.depends_on t1 = None).
Proof.
  cbn zeta. rewrite <- !ci_sub_iff.
  unfold Planner.decompose_task, Planner.parse_question; simpl fst; simpl Planner.question_type.
  unfold Planner.classify_question_type.
  destruct (contains (lower q) "who"), (contains (lower q) "what"),
    (contains (lower q) "how"), (contains (lower q) "why"); simpl;
  repeat split; try (intros; discriminate); try (intros; congruence);
  try (intros [? ?]; discriminate); try (intros [H|H]; discriminate H); try tauto;
  try (intros _; eexists _, _; repeat split; reflexivity);
  try (intros _ _; eexists; split; reflexivity).
Qed.

(** *** The merge of [hybrid_search] *)

Module RetrieverFacts.

Import Retriever.

Lemma dedup_by_id_fresh (seen : list string) (l : list RetrievedDocument) (x : RetrievedDocument) :
  In x (dedup_by_id seen l) -> ~ In (doc_id x) seen.
Proof.
  revert seen. induction l as [|r rs IH]; intros seen Hx; simpl in Hx; [contradiction|].
  destruct (existsb (String.eqb (doc_id r)) seen) eqn:E.
  - exact (IH seen Hx).
  - destruct Hx as [Hrx|Hx].
    + subst r. intro Hin. assert (existsb (String.eqb (doc_id x)) seen = true) as E'.
      { apply existsb_exists. exists (doc_id x). split; [exact Hin | apply String.eqb_refl]. }
      congruence.
    + intro Hin. apply (IH _ Hx). right. exact Hin.
Qed.

Lemma dedup_by_id_nodup (seen : list string) (l : list RetrievedDocument) :
  NoDup (map doc_id (dedup_by_id seen l)).
Proof.
  revert seen. induction l as [|r rs IH]; intro seen; simpl; [constructor|].
  destruct (existsb (String.eqb (doc_id r)) seen); [apply IH|].
  simpl. constructor; [|apply IH].
  intro Hin. apply in_map_iff in Hin as [y [Hy Hin]].
  apply (dedup_by_id_fresh _ _ _ Hin). rewrite Hy. left. reflexivity.
Qed.

(** Every kept result is the first result of its [doc_id] in the input. *)
Lemma dedup_by_id_first (seen : list string) (l : list RetrievedDocument)
    (x : RetrievedDocument) :
  In x (dedup_by_id seen l) ->
  find (fun y => String.eqb (doc_id y) (doc_id x)) l = Some x.
Proof.
  revert seen. induction l as [|r rs IH]; intros seen Hx; simpl in Hx |- *; [contradiction|].
  destruct (existsb (String.eqb (doc_id r)) seen) eqn:E.
  - assert (Hne : doc_id r <> doc_id x).
    { intro Heq. apply (dedup_by_id_fresh _ _ _ Hx). rewrite <- Heq.
      apply existsb_exists in E as [s [Hs Hrs]]. apply String.eqb_eq in Hrs.
      rewrite Hrs. exact Hs. }
    apply String.eqb_neq in Hne. rewrite Hne. exact (IH _ Hx).
  - destruct Hx as [Hrx|Hx].
    + subst r. rewrite String.eqb_refl. reflexivity.
    + assert (Hne : doc_id r <> doc_id x).
      { intro Heq. apply (dedup_by_id_fresh _ _ _ Hx). rewrite Heq. left. reflexivity. }
      apply String.eqb_neq in Hne. rewrite Hne. exact (IH _ Hx).
Qed.

Lemma insert_desc_front_perm (x : RetrievedDocument) (l : list RetrievedDocument) :
  Permutation (insert_desc_front x l) (x :: l).
Proof.
  induction l as [|y l IH]; simpl; [reflexivity|].
  destruct (Qle_bool (score y) (score x)); [reflexivity|].
  rewrite IH. apply perm_swap.
Qed.

Lemma sort_by_score_desc_perm (l : list RetrievedDocument) :
  Permutation (sort_by_score_desc l) l.
Proof.
  induction l as [|x l IH]; simpl; [reflexivity|].
  rewrite insert_desc_front_perm, IH. reflexivity.
Qed.

Lemma insert_desc_front_sorted (x : RetrievedDocument) (l : list RetrievedDocument) :
  Sorted score_ge l -> Sorted score_ge (insert_desc_front x l).
Proof.
  induction l as [|y l IH]; intro Hs; simpl.
  - repeat constructor.
  - destruct (Qle_bool (score y) (score x)) eqn:E.
    + constructor; [exact Hs|]. constructor. apply Qle_bool_iff, E.
    + apply Sorted_inv in Hs as [Hl Hh]. constructor; [apply IH, Hl|].
      assert (Hyx : score x < score y).
      { apply Qnot_le_lt. intro H. apply Qle_bool_iff in H. congruence. }
      destruct l as [|z l]; simpl.
      * constructor. unfold score_ge. apply Qlt_le_weak, Hyx.
      * destruct (Qle_bool (score z) (score x)); constructor; unfold score_ge.
        -- apply Qlt_le_weak, Hyx.
        -- inversion Hh; assumption.
Qed.

Lemma sort_by_score_desc_sorted (l : list RetrievedDocument) :
  Sorted score_ge (sort_by_score_desc l).
Proof.
  induction l as [|x l IH]; simpl; [constructor|].
  apply insert_desc_front_sorted, IH.
Qed.

Lemma firstn_sorted {A} (R : A -> A -> Prop) (n : nat) (l : list A) :
  Sorted R l -> Sorted R (firstn n l).
Proof.
  revert l. induction n as [|n IH]; intros l Hs; simpl; [constructor|].
  destruct l as [|a l]; [constructor|].
  apply Sorted_inv in Hs as [Hl Hh]. constructor; [apply IH, Hl|].
  destruct n, l; simpl; try constructor. inversion Hh; assumption.
Qed.

Lemma py_take_nonneg {A} (l : list A) (k : Z) :
  (0 <= k)%Z -> py_take l k = firstn (Z.to_nat k) l.
Proof. intro Hk. unfold py_take. destruct (Z.leb_spec 0 k); [reflexivity | lia]. Qed.

Lemma nodup_firstn {A} (n : nat) (l : list A) : NoDup l -> NoDup (firstn n l).
Proof.
  intro H. rewrite <- (firstn_skipn n l) in H. exact (NoDup_app_remove_r _ _ H).
Qed.

End RetrieverFacts.

(** C3: on an initialized retriever and for [top_k >= 1], [hybrid_search]
    returns at most [top_k] results with pairwise distinct [doc_id]s, sorted
    by score in descending order; each kept result is the first result of
    its [doc_id] in the lexical list followed by the dense list. *)
Theorem hybrid_search_correct (md5_prefix8 : string -> string)
    (r : Retriever.TraditionalRetriever) (docs : list string) (mp : option string)
    (query : string) (top_k : Z) (Hk : (1 <= top_k)%Z) :
  exists res,
    Retriever.hybrid_search md5_prefix8 (Retriever.initialize r docs mp) query top_k = Ok res /\
    (List.length res <= Z.to_nat top_k)%nat /\
    NoDup (map Retriever.doc_id res) /\
    Sorted score_ge res /\
    (forall x, In x res ->
       find (fun y => String.eqb (Retriever.doc_id y) (Retriever.doc_id x))
         (Retriever.rank_from md5_prefix8 1 "bm25" 0 (py_take docs top_k) ++
          Retriever.rank_from md5_prefix8 (9 # 10) "contriever" 0 (py_take docs top_k))%list
       = Some x).
Proof.
  unfold Retriever.hybrid_search, Retriever.bm25_search, Retriever.contriever_search,
    Retriever.initialize; simpl.
  eexists; split; [reflexivity|].
  rewrite RetrieverFacts.py_take_nonneg by lia.
  set (L := (Retriever.rank_from md5_prefix8 1 "bm25" 0 (py_take docs top_k) ++
             Retriever.rank_from md5_prefix8 (9 # 10) "contriever" 0 (py_take docs top_k))%list).
  set (U := Retriever.dedup_by_id [] L).
  pose proof (RetrieverFacts.sort_by_score_desc_perm U) as Hperm.
  split; [|split; [|split]].
  - apply firstn_le_length.
  - rewrite <- firstn_map. apply RetrieverFacts.nodup_firstn.
    apply (Permutation_NoDup (Permutation_map _ (Permutation_sym Hperm))).
    apply RetrieverFacts.dedup_by_id_nodup.
  - apply RetrieverFacts.firstn_sorted, RetrieverFacts.sort_by_score_desc_sorted.
  - intros x Hx.
    assert (Hs : In x (Retriever.sort_by_score_desc U)).
    { rewrite <- (firstn_skipn (Z.to_nat top_k) (Retriever.sort_by_score_desc U)).
      apply in_or_app. left. exact Hx. }
    apply (Permutation_in _ Hperm) in Hs.
    exact (RetrieverFacts.dedup_by_id_first [] L x Hs).
Qed.

Lemma hybrid_search_correct_witness :
  (1 <= 2)%Z /\
  exists res,
    Retriever.hybrid_search (fun s => s)
      (Retriever.initialize (Retriever.new None None) ["x"; "y"; "z"] None) "q" 2 = Ok res /\
    (List.length res <= 2)%nat.
Proof.
  split; [lia|].
  destruct (hybrid_search_correct (fun s => s) (Retriever.new None None) ["x"; "y"; "z"] None
              "q" 2 ltac:(lia)) as [res [H [Hl _]]].
  exists res. split; [exact H | exact Hl].
Defined.

Lemma retriever_run_flags (s : Retriever.TraditionalRetriever) (ops : list Retriever.RetrieverOp) :
  Retriever.index_built (Retriever.bm25_retriever s) =
    Retriever.model_loaded (Retriever.contriever_retriever s) ->
  Retriever.index_built (Retriever.bm25_retriever (Retriever.run s ops)) =
    Retriever.index_built (Retriever.bm25_retriever s) || existsb Retriever.is_initialize ops /\
  Retriever.model_loaded (Retriever.contriever_retriever (Retriever.run s ops)) =
    Retriever.index_built (Retriever.bm25_retriever s) || existsb Retriever.is_initialize ops.
Proof.
  unfold Retriever.run. revert s. induction ops as [|op ops IH]; intros s Hs; simpl.
  - rewrite orb_false_r. split; [reflexivity | symmetry; exact Hs].
  - destruct op as [docs mp|q k]; simpl.
    + destruct (IH (Retriever.initialize s docs mp) eq_refl) as [H1 H2].
      rewrite H1, H2. simpl. rewrite orb_true_r. split; reflexivity.
    + exact (IH s Hs).
Qed.

Lemma hybrid_search_flags (md5_prefix8 : string -> string) (s : Retriever.TraditionalRetriever)
    (query : string) (top_k : Z) :
  Retriever.index_built (Retriever.bm25_retriever s) =
    Retriever.model_loaded (Retriever.contriever_retriever s) ->
  is_exc (Retriever.hybrid_search md5_prefix8 s query top_k) =
    negb (Retriever.index_built (Retriever.bm25_retriever s)).
Proof.
  intro H. unfold Retriever.hybrid_search, Retriever.bm25_search, Retriever.contriever_search.
  rewrite <- H. destruct (Retriever.index_built (Retriever.bm25_retriever s)); reflexivity.
Qed.

(** C8: for a retriever built by its constructor and then driven by any
    sequence of calls, [hybrid_search] raises exactly when no [initialize]
    call has happened; after [initialize] with no documents it returns the
    empty list. *)
Theorem hybrid_search_fails_iff_uninitialized (md5_prefix8 : string -> string)
    (docs0 : option (list string)) (mp0 : option string) (ops : list Retriever.RetrieverOp)
    (query : string) (top_k : Z) :
  is_exc (Retriever.hybrid_search md5_prefix8 (Retriever.run (Retriever.new docs0 mp0) ops)
            query top_k) = negb (existsb Retriever.is_initialize ops) /\
  (forall (r : Retriever.TraditionalRetriever) (mp : option string),
     Retriever.hybrid_search md5_prefix8 (Retriever.initialize r [] mp) query top_k = Ok []).
Proof.
  split.
  - destruct (retriever_run_flags (Retriever.new docs0 mp0) ops eq_refl) as [H1 H2].
    rewrite hybrid_search_flags by (rewrite H1, H2; reflexivity).
    rewrite H1. reflexivity.
  - intros r mp. unfold Retriever.hybrid_search, Retriever.bm25_search,
      Retriever.contriever_search, Retriever.initialize, py_take; simpl.
    destruct (0 <=? top_k)%Z; rewrite !firstn_nil; reflexivity.
Qed.

(** *** The orchestrator *)

Lemma perform_multi_hop_reasoning_ok (x : Reasoner.Reasoner) (es rs : list string) :
  es <> [] -> exists r x', Reasoner.perform_multi_hop_reasoning x es rs = (Ok r, x').
Proof.
  intro Hne. unfold Reasoner.perform_multi_hop_reasoning, Reasoner.find_path_between_entities.
  assert (Hc : Reasoner.graph_connected (Reasoner.ensure_connected x) = true).
  { unfold Reasoner.ensure_connected. destruct (Reasoner.graph_connected x) eqn:E;
      [exact E | reflexivity]. }
  assert (Hc2 : Reasoner.graph_connected
                  (Reasoner.ensure_connected (Reasoner.ensure_connected x)) = true).
  { unfold Reasoner.ensure_connected at 1. rewrite Hc. exact Hc. }
  destruct (2 <=? List.length es)%nat.
  - unfold Reasoner.execute_cypher_query. rewrite Hc2. simpl.
    destruct (_ && _); [|destruct (_ && _)]; eexists _, _; reflexivity.
  - destruct es as [|e0 es]; [congruence|].
    unfold Reasoner.execute_cypher_query. rewrite Hc. simpl.
    destruct (_ && _); [|destruct (_ && _)]; eexists _, _; reflexivity.
Qed.

(** C9: when the parsed question has no entity, the reasoning stage yields
    the fallback result (type "fallback", confidence 0.6, below the 0.85 of
    path finding) without touching the reasoner; the reasoner itself raises
    [IndexError] on an empty entity list, yet the reasoning stage of the
    pipeline never raises. *)
Theorem reasoning_stage_fallback :
  (forall (parsed : Planner.ParsedQuestion) (c : Agent.Components),
     Planner.entities parsed = [] ->
     Agent.reasoning_stage parsed c = (Ok Agent.fallback_result, c) /\
     reasoning_type Agent.fallback_result = "fallback" /\
     (forall x es rs r x', (2 <= List.length es)%nat ->
        Reasoner.perform_multi_hop_reasoning x es rs = (Ok r, x') ->
        reasoning_type r = "path_finding" /\
        r_confidence Agent.fallback_result < r_confidence r)) /\
  (forall x rs, fst (Reasoner.perform_multi_hop_reasoning x [] rs) = Exc Reasoner.index_error) /\
  (forall (parsed : Planner.ParsedQuestion) (c : Agent.Components),
     exists r c', Agent.reasoning_stage parsed c = (Ok r, c')) /\
  (forall q, Planner.entities (Planner.parse_question q) = []).
Proof.
  split; [|split; [|split]].
  - intros parsed c He. unfold Agent.reasoning_stage. rewrite He.
    split; [reflexivity | split; [reflexivity|]].
    intros x es rs r x' H2 Hr. unfold Reasoner.perform_multi_hop_reasoning in Hr.
    apply Nat.leb_le in H2. rewrite H2 in Hr.
    destruct (Reasoner.find_path_between_entities _ _ _ _) as [[rows|e] x2].
    + injection Hr as <- _. split; [reflexivity|].
      unfold r_confidence, Agent.fallback_result. apply Qlt_bool_iff. reflexivity.
    + discriminate Hr.
  - intros x rs. reflexivity.
  - intros parsed c. unfold Agent.reasoning_stage.
    destruct (Planner.entities parsed) as [|e es] eqn:E.
    + eexists _, _. reflexivity.
    + destruct (perform_multi_hop_reasoning_ok (Agent.reasoner c) (e :: es)
                  (Planner.relations parsed) ltac:(discriminate)) as [r [x' H]].
      rewrite H. eexists _, _. reflexivity.
  - intro q. reflexivity.
Qed.

Lemma retrieve_all_state (md5_prefix8 : string -> string) (k : Z)
    (ts : list Planner.SubTask) (c c' : Agent.Components) (r : Result (list string)) :
  Agent.retrieve_all md5_prefix8 k ts c = (r, c') -> c' = c.
Proof.
  revert c r c'. induction ts as [|t ts IH]; intros c r c' H; simpl in H.
  - injection H as _ <-. reflexivity.
  - destruct (Retriever.hybrid_search _ _ _ _) as [results|e].
    + unfold Agent.bind in H. destruct (Agent.retrieve_all _ _ _ _) as [[rest|e] c2] eqn:E;
        apply IH in E; subst c2; injection H as _ <-; reflexivity.
    + injection H as _ <-. reflexivity.
Qed.

(** The shape of a successful run of the [try] block: the reasoning step is
    the fallback result and the validation step its one-element chain. *)
Lemma pipeline_ok_shape (md5_prefix8 : string -> string)
    (repr_reasoning : ReasoningResult -> string) (cfg : Agent.Config)
    (question question_id : string) (c c' : Agent.Components) (a : AnswerGenerator.Answer) :
  Agent.pipeline md5_prefix8 repr_reasoning cfg question question_id c = (Ok a, c') ->
  exists v docs,
    v = fst (Validator.validate_reasoning_chain (Agent.validator c)
               [RStep Agent.fallback_result]) /\
    a = AnswerGenerator.generate_answer question_id (repr_reasoning Agent.fallback_result)
          (Planner.question_type (Planner.parse_question question))
          (r_confidence Agent.fallback_result * v_confidence v) docs
          [RStep Agent.fallback_result; VStep v].
Proof.
  unfold Agent.pipeline, Agent.bind.
  destruct (Planner.decompose_task (Agent.planner c) (Planner.parse_question question))
    as [ts p] eqn:Ed.
  destruct (Agent.retrieve_all md5_prefix8 (Agent.top_k_retrieval cfg) ts
              (Agent.with_planner p c)) as [[docs|e] c1] eqn:Er; [|discriminate].
  apply retrieve_all_state in Er. subst c1.
  destruct (GraphBuilder.build_graph_from_documents
              (Agent.graph_builder (Agent.with_planner p c)) (Agent.dedup_docs [] docs))
    as [[tr|e] g]; [|discriminate].
  unfold Agent.reasoning_stage, Agent.ret.
  change (Planner.entities (Planner.parse_question question)) with (@nil string).
  cbv iota beta. cbn [Agent.validator Agent.with_graph_builder Agent.with_planner].
  match goal with |- context [Validator.validate_reasoning_chain ?vd ?l] =>
    destruct (Validator.validate_reasoning_chain vd l) as [v vs] eqn:Ev end.
  match goal with |- context [Agent.execution_stage ts ?c3] =>
    destruct (Agent.execution_stage ts c3) as [[x|e] c4] end; [|discriminate].
  intro H. injection H as <- _.
  exists v, (firstn 3 (Agent.dedup_docs [] docs)). split; [|reflexivity].
  reflexivity.
Qed.

(** C4: on the non-error path, the answer's confidence is the product of the
    confidences of its two reasoning steps, the reasoning result and the
    validation result. *)
Theorem process_question_confidence (md5_prefix8 : string -> string)
    (repr_reasoning : ReasoningResult -> string) (ag ag' : Agent.MultiHopAgent)
    (question question_id : string) (a : AnswerGenerator.Answer)
    (H : Agent.process_question md5_prefix8 repr_reasoning ag question question_id = (Ok a, ag'))
    (Hne : AnswerGenerator.answer_type a <> "error") :
  exists r v,
    AnswerGenerator.reasoning_steps a = [RStep r; VStep v] /\
    AnswerGenerator.confidence a == r_confidence r * v_confidence v.
Proof.
  unfold Agent.process_question in H.
  destruct (Agent.system_initialized ag); simpl in H; [|discriminate H].
  destruct (Agent.components ag) as [c|].
  - destruct (Agent.pipeline md5_prefix8 repr_reasoning (Agent.config ag) question question_id c)
      as [[a'|e] c'] eqn:Ep; injection H as <- _.
    + apply pipeline_ok_shape in Ep as [v [docs [Hv ->]]].
      exists Agent.fallback_result, v. split; [reflexivity|].
      subst v. vm_compute. reflexivity.
    + exfalso. apply Hne. reflexivity.
  - injection H as <- _. exfalso. apply Hne. reflexivity.
Qed.

Lemma process_question_confidence_witness :
  exists a ag',
    Agent.process_question (fun s => s) reasoning_type example_agent
      "Who developed the Theory of Relativity?" "q1" = (Ok a, ag') /\
    AnswerGenerator.answer_type a = "entity_identification" /\
    exists r v,
      AnswerGenerator.reasoning_steps a = [RStep r; VStep v] /\
      AnswerGenerator.confidence a == r_confidence r * v_confidence v.
Proof.
  destruct (Agent.process_question (fun s => s) reasoning_type example_agent
              "Who developed the Theory of Relativity?" "q1") as [[a|e] ag'] eqn:E.
  - assert (Ht : AnswerGenerator.answer_type a = "entity_identification").
    { pose proof E as E'. vm_compute in E'. injection E' as Ha _. rewrite <- Ha. reflexivity. }
    exists a, ag'. split; [reflexivity|]. split; [exact Ht|].
    apply (process_question_confidence _ _ _ _ _ _ a E). rewrite Ht. discriminate.
  - vm_compute in E. discriminate E.
Defined.

(** C2 (amended): an initialized orchestrator always returns an answer; when
    a stage of the pipeline raises [e], the answer has type "error",
    confidence 0.0, no evidence and no reasoning steps, the text
    ["Error: " ++ str(e)] and [str(e)] under ["error"]. *)
Theorem process_question_error_answer (md5_prefix8 : string -> string)
    (repr_reasoning : ReasoningResult -> string) (ag : Agent.MultiHopAgent)
    (question question_id : string) (Hinit : Agent.system_initialized ag = true) :
  exists a ag',
    Agent.process_question md5_prefix8 repr_reasoning ag question question_id = (Ok a, ag') /\
    (forall c e c', Agent.components ag = Some c ->
       Agent.pipeline md5_prefix8 repr_reasoning (Agent.config ag) question question_id c
         = (Exc e, c') ->
       AnswerGenerator.answer_type a = "error" /\ AnswerGenerator.confidence a == 0 /\
       AnswerGenerator.evidence a = [] /\ AnswerGenerator.reasoning_steps a = [] /\
       AnswerGenerator.answer a = "Error: " ++ exc_msg e /\
       AnswerGenerator.error a = Some (exc_msg e)).
Proof.
  unfold Agent.process_question. rewrite Hinit. simpl negb. cbv iota.
  destruct (Agent.components ag) as [c|] eqn:Ec.
  - destruct (Agent.pipeline md5_prefix8 repr_reasoning (Agent.config ag) question question_id c)
      as [[a|e] c'] eqn:Ep.
    + eexists _, _. split; [reflexivity|].
      intros c0 e c0' Hc Hp. injection Hc as <-. congruence.
    + eexists _, _. split; [reflexivity|].
      intros c0 e0 c0' Hc Hp. injection Hc as <-. rewrite Ep in Hp.
      injection Hp as <- _. repeat split; reflexivity.
  - eexists _, _. split; [reflexivity|]. intros c0 e c0' Hc. discriminate Hc.
Qed.

Lemma process_question_error_answer_witness :
  Agent.system_initialized agent_without_documents = true /\
  exists a ag',
    Agent.process_question (fun s => s) reasoning_type agent_without_documents
      "Who developed the Theory of Relativity?" "q1" = (Ok a, ag').
Proof.
  split; [reflexivity|].
  destruct (process_question_error_answer (fun s => s) reasoning_type agent_without_documents
              "Who developed the Theory of Relativity?" "q1" eq_refl) as [a [ag' [H _]]].
  exists a, ag'. exact H.
Defined.

(** C2, as stated, fails on the answer text: it is the message prefixed
    with ["Error: "]. With no documents the retriever is never initialized
    and [hybrid_search] raises. *)
Lemma process_question_error_text_counterexample :
  match fst (Agent.process_question (fun s => s) reasoning_type agent_without_documents
               "Who developed the Theory of Relativity?" "q1") with
  | Ok a =>
      AnswerGenerator.answer_type a = "error" /\
      AnswerGenerator.error a = Some "Index not built. Call build_index() first." /\
      AnswerGenerator.answer a <> "Index not built. Call build_index() first."
  | Exc _ => False
  end.
Proof.
  vm_compute. split; [reflexivity | split; [reflexivity|]]. intro H. discriminate H.
Qed.

(** ** Further properties of the code *)

(** *** Validator *)

Lemma dedup_strings_in (l : list string) (x : string) :
  In x (Validator.dedup_strings l) -> In x l.
Proof.
  induction l as [|y l IH]; simpl; [tauto|].
  destruct (existsb (String.eqb y) (Validator.dedup_strings l)).
  - intro H. right. apply IH, H.
  - intros [H|H]; [left; exact H | right; apply IH, H].
Qed.

Lemma dedup_strings_length (l : list string) :
  (List.length (Validator.dedup_strings l) <= List.length l)%nat /\
  (l <> [] -> 1 <= List.length (Validator.dedup_strings l))%nat.
Proof.
  induction l as [|y l IH]; simpl; [split; [lia | congruence]|].
  destruct IH as [IH1 IH2].
  destruct (existsb (String.eqb y) (Validator.dedup_strings l)) eqn:E; simpl.
  - split; [lia|]. intros _. destruct (Validator.dedup_strings l); [discriminate E | simpl; lia].
  - split; lia.
Qed.

Lemma dedup_strings_nodup (l : list string) : NoDup l -> Validator.dedup_strings l = l.
Proof.
  induction l as [|y l IH]; intro Hn; simpl; [reflexivity|].
  inversion Hn as [|? ? Hy Hl]; subst. rewrite (IH Hl).
  destruct (existsb (String.eqb y) l) eqn:E; [|reflexivity].
  apply existsb_exists in E as [z [Hz Hyz]]. apply String.eqb_eq in Hyz. subst z. contradiction.
Qed.

Lemma Qdiv_unit_bounds (a b : Z) :
  (1 <= a)%Z -> (a <= b)%Z -> 0 < inject_Z a / inject_Z b /\ inject_Z a / inject_Z b <= 1.
Proof.
  intros Ha Hab. assert (Hb : 0 < inject_Z b) by (change 0 with (inject_Z 0); rewrite <- Zlt_Qlt; lia).
  split.
  - apply Qlt_shift_div_l; [exact Hb|]. rewrite Qmult_0_l.
    change 0 with (inject_Z 0); rewrite <- Zlt_Qlt; lia.
  - apply Qle_shift_div_r; [exact Hb|]. rewrite Qmult_1_l. rewrite <- Zle_Qle; lia.
Qed.

(** Cross-validation: with no fact the score is 0.0, the result is invalid
    and its confidence is 0.3; otherwise the score lies in (0, 1]; the
    confidence is always within [0, 1]; facts that are pairwise distinct
    give score 1.0, a valid result and confidence 1.0. *)
Theorem perform_cross_validation_bounds (v : Validator.Validator) (facts sources : list string) :
  match fst (Validator.perform_cross_validation v facts sources) with
  | CrossValidation _ _ score is_valid confidence =>
      (facts = [] -> score == 0 /\ is_valid = false /\ confidence == 3 # 10) /\
      (facts <> [] -> 0 < score /\ score <= 1) /\
      (is_valid = true <-> 1 # 2 < score) /\
      0 <= confidence /\ confidence <= 1 /\
      (NoDup facts -> facts <> [] -> score == 1 /\ is_valid = true /\ confidence == 1)
  | _ => False
  end.
Proof.
  unfold Validator.perform_cross_validation. simpl fst.
  set (score := match facts with
                | [] => 0
                | _ => inject_Z (Z.of_nat (List.length (Validator.dedup_strings facts)))
                       / inject_Z (Z.of_nat (List.length facts)) end).
  assert (Hs : facts <> [] -> 0 < score /\ score <= 1).
  { intro Hne. subst score. destruct facts as [|f fs]; [congruence|].
    destruct (dedup_strings_length (f :: fs)) as [H1 H2].
    apply Qdiv_unit_bounds; [specialize (H2 Hne); lia | lia]. }
  assert (Hs0 : 0 <= score).
  { destruct facts as [|f fs] eqn:Ef; [subst score; apply Qle_refl|].
    apply Qlt_le_weak, Hs. discriminate. }
  assert (Hc : 0 <= (if Qle_bool (score + (3 # 10)) 1 then score + (3 # 10) else 1) /\
               (if Qle_bool (score + (3 # 10)) 1 then score + (3 # 10) else 1) <= 1).
  { destruct (Qle_bool (score + (3 # 10)) 1) eqn:E.
    - apply Qle_bool_iff in E. split; [|exact E].
      apply (Qle_trans _ (0 + 0)); [apply Qle_refl|].
      apply Qplus_le_compat; [exact Hs0 | apply Qle_bool_iff; reflexivity].
    - split; apply Qle_bool_iff; reflexivity. }
  split; [|split; [exact Hs|split; [|split; [apply Hc | split; [apply Hc|]]]]].
  - intros ->. subst score. split; [reflexivity | split; reflexivity].
  - apply Qlt_bool_iff.
  - intros Hn Hne. assert (Hs1 : score == 1).
    { subst score. destruct facts as [|f fs]; [congruence|].
      rewrite (dedup_strings_nodup _ Hn). unfold Qdiv. apply Qmult_inv_r.
      intro H0. apply Qeq_sym in H0. revert H0. apply Qlt_not_eq.
      change 0 with (inject_Z 0); rewrite <- Zlt_Qlt. simpl. lia. }
    assert (Hv : Qlt_bool (1 # 2) score = true).
    { apply Qlt_bool_iff. rewrite Hs1. reflexivity. }
    split; [exact Hs1 | split; [exact Hv|]].
    assert (Hle : Qle_bool (score + (3 # 10)) 1 = false).
    { apply not_true_iff_false. intro H. apply Qle_bool_iff in H.
      rewrite Hs1 in H. apply H. reflexivity. }
    rewrite Hle. reflexivity.
Qed.

Lemma sum_unit_bounds (l : list Q) :
  Forall (fun c => 0 <= c /\ c <= 1) l ->
  0 <= fold_right Qplus 0 l /\ fold_right Qplus 0 l <= inject_Z (Z.of_nat (List.length l)).
Proof.
  induction 1 as [|c l [Hc0 Hc1] _ [IH0 IH1]]; cbn [fold_right List.length]; [split; apply Qle_refl|].
  rewrite Nat2Z.inj_succ, <- Z.add_1_l, inject_Z_plus. split.
  - apply (Qle_trans _ (0 + 0)); [apply Qle_refl|]. apply Qplus_le_compat; assumption.
  - apply Qplus_le_compat; assumption.
Qed.

Lemma mean_unit_bounds (l : list Q) :
  l <> [] -> Forall (fun c => 0 <= c /\ c <= 1) l -> 0 <= mean l /\ mean l <= 1.
Proof.
  intros Hne Hl. destruct (sum_unit_bounds l Hl) as [H0 H1]. unfold mean.
  assert (Hp : 0 < inject_Z (Z.of_nat (List.length l))).
  { destruct l; [congruence|]. change 0 with (inject_Z 0). rewrite <- Zlt_Qlt. simpl. lia. }
  split.
  - apply Qle_shift_div_l; [exact Hp|]. rewrite Qmult_0_l. exact H0.
  - apply Qle_shift_div_r; [exact Hp|]. rewrite Qmult_1_l. exact H1.
Qed.

(** Every validator method reports a confidence within [0, 1]; for a
    reasoning chain this holds as soon as each step's confidence does. *)
Theorem validator_confidence_bounds (v : Validator.Validator) :
  (forall py_eval is_exception expr expected res,
     fst (Validator.validate_mathematical_computation py_eval is_exception v expr expected) = Ok res ->
     0 <= v_confidence res /\ v_confidence res <= 1) /\
  (forall fact fact_type,
     let c := v_confidence (fst (Validator.validate_external_fact v fact fact_type)) in
     0 <= c /\ c <= 1) /\
  (forall facts sources,
     let c := v_confidence (fst (Validator.perform_cross_validation v facts sources)) in
     0 <= c /\ c <= 1) /\
  (forall steps, Forall (fun s => 0 <= conf s /\ conf s <= 1) steps ->
     let c := v_confidence (fst (Validator.validate_reasoning_chain v steps)) in
     0 <= c /\ c <= 1).
Proof.
  split; [|split; [|split]].
  - intros py_eval is_exception expr expected res.
    unfold Validator.validate_mathematical_computation.
    destruct (py_eval expr); [|destruct (is_exception _)]; simpl; intro H;
      try discriminate H; injection H as <-; simpl; [destruct (py_eq _ _)|]; split; discriminate.
  - intros fact fact_type. cbn zeta. unfold Validator.validate_external_fact.
    destruct (String.eqb fact_type "ofac_sanctions"); [|destruct (String.eqb fact_type "sec_filings")];
      simpl; split; discriminate.
  - intros facts sources. pose proof (perform_cross_validation_bounds v facts sources) as H.
    destruct (fst (Validator.perform_cross_validation v facts sources)); try contradiction.
    simpl. tauto.
  - intros steps Hs. cbn zeta. unfold Validator.validate_reasoning_chain. simpl.
    destruct (forallb _ steps); [|split; discriminate].
    destruct steps as [|s l]; [split; discriminate|].
    rewrite (chain_average_mean (s :: l)). apply mean_unit_bounds; [discriminate|].
    apply Forall_map. exact Hs.
Qed.

(** The OFAC check: a fact checked as "ofac_sanctions" is invalid exactly
    when it contains "sanctioned" in any letter case; every other fact type
    is reported valid. The result is always appended to the history. *)
Theorem validate_external_fact_valid_iff (v : Validator.Validator) (fact fact_type : string) :
  let '(res, v') := Validator.validate_external_fact v fact fact_type in
  (v_is_valid res = false <-> fact_type = "ofac_sanctions" /\ ci_sub "sanctioned" fact) /\
  Validator.validation_history v' = (Validator.validation_history v ++ [res])%list.
Proof.
  unfold Validator.validate_external_fact. simpl. split; [|reflexivity].
  destruct (String.eqb_spec fact_type "ofac_sanctions") as [->|Hne]; simpl.
  - rewrite <- ci_sub_iff, negb_false_iff. tauto.
  - destruct (String.eqb fact_type "sec_filings"); simpl; split; try discriminate;
      intros [H _]; contradiction.
Qed.

(** *** Retriever *)

Lemma existsb_eqb_In (x : string) (l : list string) :
  existsb (String.eqb x) l = true <-> In x l.
Proof.
  rewrite existsb_exists. split.
  - intros [y [Hy Hxy]]. apply String.eqb_eq in Hxy. subst y. exact Hy.
  - intro H. exists x. split; [exact H | apply String.eqb_refl].
Qed.

Lemma rank_step_le (base : Q) (i : nat) :
  base - inject_Z (Z.of_nat (S i)) * (1 # 10) <= base - inject_Z (Z.of_nat i) * (1 # 10).
Proof.
  rewrite Nat2Z.inj_succ, <- Z.add_1_r, inject_Z_plus.
  set (a := inject_Z (Z.of_nat i)). change (inject_Z 1) with 1. lra.
Qed.

Lemma rank_from_nth (md5_prefix8 : string -> string) (base : Q) (src : string)
    (i : nat) (docs : list string) (j : nat) :
  nth_error (Retriever.rank_from md5_prefix8 base src i docs) j =
  option_map (fun d => Retriever.mkDoc d (base - inject_Z (Z.of_nat (i + j)) * (1 # 10))
                         src (md5_prefix8 d)) (nth_error docs j).
Proof.
  revert i j. induction docs as [|d docs IH]; intros i j; simpl; [destruct j; reflexivity|].
  destruct j as [|j]; simpl; [rewrite Nat.add_0_r; reflexivity|].
  rewrite IH. replace (S i + j)%nat with (i + S j)%nat by lia. reflexivity.
Qed.

Lemma rank_from_documents (md5_prefix8 : string -> string) (base : Q) (src : string)
    (i : nat) (docs : list string) :
  map Retriever.document (Retriever.rank_from md5_prefix8 base src i docs) = docs /\
  map Retriever.doc_id (Retriever.rank_from md5_prefix8 base src i docs) = map md5_prefix8 docs.
Proof.
  revert i. induction docs as [|d docs IH]; intro i; simpl; [split; reflexivity|].
  destruct (IH (S i)) as [H1 H2]. rewrite H1, H2. split; reflexivity.
Qed.

Lemma rank_from_le (md5_prefix8 : string -> string) (base : Q) (src : string)
    (i : nat) (docs : list string) :
  Forall (fun r => Retriever.score r <= base - inject_Z (Z.of_nat i) * (1 # 10))
    (Retriever.rank_from md5_prefix8 base src i docs).
Proof.
  revert i. induction docs as [|d docs IH]; intro i; simpl; constructor; [apply Qle_refl|].
  eapply Forall_impl; [|apply (IH (S i))].
  intros r Hr. eapply Qle_trans; [exact Hr | apply rank_step_le].
Qed.

Lemma rank_from_strongly_sorted (md5_prefix8 : string -> string) (base : Q) (src : string)
    (i : nat) (docs : list string) :
  StronglySorted score_ge (Retriever.rank_from md5_prefix8 base src i docs).
Proof.
  revert i. induction docs as [|d docs IH]; intro i; simpl; constructor; [apply IH|].
  eapply Forall_impl; [|apply (rank_from_le md5_prefix8 base src (S i) docs)].
  intros r Hr. unfold score_ge. simpl. eapply Qle_trans; [exact Hr | apply rank_step_le].
Qed.

Lemma dedup_by_id_in (seen : list string) (l : list Retriever.RetrievedDocument) x :
  In x (Retriever.dedup_by_id seen l) -> In x l.
Proof.
  revert seen. induction l as [|r rs IH]; intros seen; simpl; [tauto|].
  destruct (existsb (String.eqb (Retriever.doc_id r)) seen).
  - intro H. right. exact (IH _ H).
  - intros [H|H]; [left; exact H | right; exact (IH _ H)].
Qed.

Lemma dedup_by_id_strongly_sorted (seen : list string) (l : list Retriever.RetrievedDocument) :
  StronglySorted score_ge l -> StronglySorted score_ge (Retriever.dedup_by_id seen l).
Proof.
  revert seen. induction l as [|r rs IH]; intros seen Hs; simpl; [constructor|].
  apply StronglySorted_inv in Hs as [Hrs Hf].
  destruct (existsb (String.eqb (Retriever.doc_id r)) seen); [apply IH, Hrs|].
  constructor; [apply IH, Hrs|]. apply Forall_forall. intros x Hx.
  apply (proj1 (Forall_forall _ _) Hf). exact (dedup_by_id_in _ _ _ Hx).
Qed.

Lemma sort_by_score_desc_sorted_id (l : list Retriever.RetrievedDocument) :
  StronglySorted score_ge l -> Retriever.sort_by_score_desc l = l.
Proof.
  induction l as [|x l IH]; intro Hs; [reflexivity|].
  apply StronglySorted_inv in Hs as [Hl Hf]. unfold Retriever.sort_by_score_desc in *.
  simpl. rewrite (IH Hl). destruct l as [|y l]; [reflexivity|]. simpl.
  inversion Hf as [|? ? Hxy _]; subst. unfold score_ge in Hxy.
  apply Qle_bool_iff in Hxy. rewrite Hxy. reflexivity.
Qed.

Lemma dedup_by_id_all_seen (seen : list string) (l : list Retriever.RetrievedDocument) :
  (forall r, In r l -> In (Retriever.doc_id r) seen) -> Retriever.dedup_by_id seen l = [].
Proof.
  induction l as [|r rs IH]; intro H; simpl; [reflexivity|].
  assert (E : existsb (String.eqb (Retriever.doc_id r)) seen = true).
  { apply existsb_eqb_In, H. left. reflexivity. }
  rewrite E. apply IH. intros x Hx. apply H. right. exact Hx.
Qed.

(** Results whose [doc_id] already occurs earlier are all dropped. *)
Lemma dedup_by_id_app_covered (seen : list string) (l1 l2 : list Retriever.RetrievedDocument) :
  (forall r, In r l2 -> In (Retriever.doc_id r) seen \/ In (Retriever.doc_id r) (map Retriever.doc_id l1)) ->
  Retriever.dedup_by_id seen (l1 ++ l2) = Retriever.dedup_by_id seen l1.
Proof.
  revert seen. induction l1 as [|r rs IH]; intros seen H; simpl.
  - apply dedup_by_id_all_seen. intros x Hx. destruct (H x Hx) as [Hs|[]]. exact Hs.
  - destruct (existsb (String.eqb (Retriever.doc_id r)) seen) eqn:E.
    + apply IH. intros x Hx. destruct (H x Hx) as [Hs|[Hr|Hr]]; [left; exact Hs| |right; exact Hr].
      left. rewrite <- Hr. apply existsb_eqb_In, E.
    + f_equal. apply IH. intros x Hx. destruct (H x Hx) as [Hs|[Hr|Hr]].
      * left. right. exact Hs.
      * left. left. exact Hr.
      * right. exact Hr.
Qed.

Lemma py_take_in {A} (l : list A) (k : Z) (x : A) : In x (py_take l k) -> In x l.
Proof.
  assert (H : forall n, In x (firstn n l) -> In x l).
  { intros n Hx. rewrite <- (firstn_skipn n l). apply in_or_app. left. exact Hx. }
  unfold py_take. destruct (0 <=? k)%Z; apply H.
Qed.

(** Both searches raise [ValueError] before the index is built (resp. the
    model loaded); afterwards they rank the first [top_k] documents in their
    stored order, the [j]-th with score [1.0 - 0.1*j] (BM25) or
    [0.9 - 0.1*j] (Contriever), tagged with the retriever's name and the
    document's hash prefix as [doc_id]. *)
Theorem retriever_search_ranking (md5_prefix8 : string -> string) (query : string) (top_k : Z) :
  (forall b, Retriever.index_built b = false ->
     Retriever.bm25_search md5_prefix8 b query top_k = Exc Retriever.not_built) /\
  (forall b, Retriever.index_built b = true ->
     exists res, Retriever.bm25_search md5_prefix8 b query top_k = Ok res /\
       map Retriever.document res = py_take (Retriever.bm25_documents b) top_k /\
       forall j r, nth_error res j = Some r ->
         Retriever.score r == 1 - inject_Z (Z.of_nat j) * (1 # 10) /\
         Retriever.source r = "bm25" /\ Retriever.doc_id r = md5_prefix8 (Retriever.document r)) /\
  (forall c docs, Retriever.model_loaded c = false ->
     Retriever.contriever_search md5_prefix8 c query docs top_k = Exc Retriever.not_loaded) /\
  (forall c docs, Retriever.model_loaded c = true ->
     exists res, Retriever.contriever_search md5_prefix8 c query docs top_k = Ok res /\
       map Retriever.document res = py_take docs top_k /\
       forall j r, nth_error res j = Some r ->
         Retriever.score r == (9 # 10) - inject_Z (Z.of_nat j) * (1 # 10) /\
         Retriever.source r = "contriever" /\ Retriever.doc_id r = md5_prefix8 (Retriever.document r)).
Proof.
  assert (Hnth : forall base src docs j r,
    nth_error (Retriever.rank_from md5_prefix8 base src 0 docs) j = Some r ->
    Retriever.score r == base - inject_Z (Z.of_nat j) * (1 # 10) /\
    Retriever.source r = src /\ Retriever.doc_id r = md5_prefix8 (Retriever.document r)).
  { intros base src docs j r H. rewrite rank_from_nth in H.
    destruct (nth_error docs j); simpl in H; [|discriminate].
    injection H as <-. simpl. split; [reflexivity | split; reflexivity]. }
  unfold Retriever.bm25_search, Retriever.contriever_search.
  split; [|split; [|split]].
  - intros b Hb. rewrite Hb. reflexivity.
  - intros b Hb. rewrite Hb. eexists. split; [reflexivity|].
    split; [apply rank_from_documents | apply Hnth].
  - intros c docs Hc. rewrite Hc. reflexivity.
  - intros c docs Hc. rewrite Hc. eexists. split; [reflexivity|].
    split; [apply rank_from_documents | apply Hnth].
Qed.

(** After [initialize], [hybrid_search] returns the BM25 ranking with later
    results of an already seen [doc_id] dropped, cut to [top_k]: the dense
    results never survive the merge, since they rank the same documents
    with the same ids and lower scores. *)
Theorem hybrid_search_after_initialize (md5_prefix8 : string -> string)
    (self : Retriever.TraditionalRetriever) (docs : list string) (mp : option string)
    (query : string) (top_k : Z) :
  let bm25_results := Retriever.rank_from md5_prefix8 1 "bm25" 0 (py_take docs top_k) in
  Retriever.hybrid_search md5_prefix8 (Retriever.initialize self docs mp) query top_k =
    Ok (py_take (Retriever.dedup_by_id [] bm25_results) top_k) /\
  Forall (fun r => Retriever.source r = "bm25")
    (py_take (Retriever.dedup_by_id [] bm25_results) top_k).
Proof.
  cbn zeta. split.
  - unfold Retriever.hybrid_search, Retriever.bm25_search, Retriever.contriever_search,
      Retriever.initialize. simpl.
    rewrite dedup_by_id_app_covered.
    + rewrite sort_by_score_desc_sorted_id; [reflexivity|].
      apply dedup_by_id_strongly_sorted, rank_from_strongly_sorted.
    + intros r Hr. right.
      rewrite (proj2 (rank_from_documents _ _ _ _ _)).
      rewrite <- (proj2 (rank_from_documents md5_prefix8 (9 # 10) "contriever" 0 (py_take docs top_k))).
      apply in_map, Hr.
  - apply Forall_forall. intros r Hr.
    assert (Hin : In r (Retriever.rank_from md5_prefix8 1 "bm25" 0 (py_take docs top_k))).
    { apply (dedup_by_id_in []). exact (py_take_in _ _ _ Hr). }
    apply In_nth_error in Hin as [j Hj]. rewrite rank_from_nth in Hj.
    destruct (nth_error (py_take docs top_k) j); simpl in Hj; [|discriminate].
    injection Hj as <-. reflexivity.
Qed.

(** *** Planner, graph builder and executor as used by the pipeline *)

Lemma decompose_task_nonempty (p : Planner.PlannerAgent) (pq : Planner.ParsedQuestion) :
  exists t ts, fst (Planner.decompose_task p pq) = t :: ts.
Proof.
  unfold Planner.decompose_task. simpl.
  destruct (String.eqb _ "entity_identification"); [|destruct (String.eqb _ "fact_retrieval")];
    eexists _, _; reflexivity.
Qed.

Lemma decompose_task_no_complex (p : Planner.PlannerAgent) (pq : Planner.ParsedQuestion) :
  find (fun t => existsb (String.eqb (Planner.task_type t)) Agent.complex_task_types)
    (fst (Planner.decompose_task p pq)) = None.
Proof.
  unfold Planner.decompose_task. simpl.
  destruct (String.eqb _ "entity_identification"); [|destruct (String.eqb _ "fact_retrieval")];
    reflexivity.
Qed.

Lemma execution_stage_decompose (p : Planner.PlannerAgent) (pq : Planner.ParsedQuestion)
    (c : Agent.Components) :
  Agent.execution_stage (fst (Planner.decompose_task p pq)) c = (Ok None, c).
Proof. unfold Agent.execution_stage. rewrite decompose_task_no_complex. reflexivity. Qed.

Lemma build_graph_ok (g : GraphBuilder.GraphBuilder) (docs : list string) :
  exists g', GraphBuilder.build_graph_from_documents g docs =
               (Ok (flat_map GraphBuilder.extract_triples docs), g') /\
             GraphBuilder.graph_initialized g' = true /\
             GraphBuilder.neo4j_uri g' = GraphBuilder.neo4j_uri g.
Proof.
  unfold GraphBuilder.build_graph_from_documents, GraphBuilder.store_triples.
  destruct (GraphBuilder.graph_initialized g) eqn:E; simpl.
  - rewrite E. simpl. exists g. split; [reflexivity | split; [exact E | reflexivity]].
  - eexists. split; [reflexivity | split; reflexivity].
Qed.

Lemma classify_not_error (q : string) : Planner.classify_question_type q <> "error".
Proof.
  unfold Planner.classify_question_type.
  destruct (contains (lower q) "who"); [discriminate|].
  destruct (contains (lower q) "what"); [discriminate|].
  destruct (contains (lower q) "how" || contains (lower q) "why"); discriminate.
Qed.

(** *** Retrieval inside the pipeline *)

Lemma hybrid_search_docs (md5_prefix8 : string -> string) (s : Retriever.TraditionalRetriever)
    (query : string) (top_k : Z) (res : list Retriever.RetrievedDocument) :
  Retriever.hybrid_search md5_prefix8 s query top_k = Ok res ->
  incl (map Retriever.document res)
    (Retriever.bm25_documents (Retriever.bm25_retriever s) ++ Retriever.documents s).
Proof.
  unfold Retriever.hybrid_search, Retriever.bm25_search, Retriever.contriever_search.
  destruct (negb (Retriever.index_built _)); [discriminate|].
  destruct (negb (Retriever.model_loaded _)); [discriminate|].
  intros H. injection H as <-. intros d Hd.
  apply in_map_iff in Hd as [r [<- Hr]].
  apply py_take_in in Hr.
  apply (Permutation_in _ (RetrieverFacts.sort_by_score_desc_perm _)) in Hr.
  apply dedup_by_id_in in Hr. apply in_app_or in Hr as [Hr|Hr]; apply in_or_app.
  - left. apply (py_take_in _ top_k).
    rewrite <- (proj1 (rank_from_documents md5_prefix8 1 "bm25" 0 _)). apply in_map, Hr.
  - right. apply (py_take_in _ top_k).
    rewrite <- (proj1 (rank_from_documents md5_prefix8 (9 # 10) "contriever" 0 _)). apply in_map, Hr.
Qed.

Lemma retrieve_all_docs (md5_prefix8 : string -> string) (k : Z)
    (ts : list Planner.SubTask) (c c' : Agent.Components) (docs : list string) :
  Agent.retrieve_all md5_prefix8 k ts c = (Ok docs, c') ->
  incl docs (Retriever.bm25_documents (Retriever.bm25_retriever (Agent.retriever c))
             ++ Retriever.documents (Agent.retriever c)).
Proof.
  revert c c' docs. induction ts as [|t ts IH]; intros c c' docs H; simpl in H.
  - injection H as <- _. intros d [].
  - destruct (Retriever.hybrid_search _ _ _ _) as [results|e] eqn:Eh; [|discriminate].
    unfold Agent.bind in H. destruct (Agent.retrieve_all _ _ _ _) as [[rest|e] c2] eqn:E;
      [|discriminate].
    pose proof (retrieve_all_state _ _ _ _ _ _ E) as Hc. subst c2.
    injection H as <- _. apply incl_app; [exact (hybrid_search_docs _ _ _ _ _ Eh) |].
    exact (IH _ _ _ E).
Qed.

Lemma retrieve_all_ready (md5_prefix8 : string -> string) (k : Z)
    (ts : list Planner.SubTask) (c : Agent.Components) :
  Retriever.index_built (Retriever.bm25_retriever (Agent.retriever c)) = true ->
  Retriever.model_loaded (Retriever.contriever_retriever (Agent.retriever c)) = true ->
  exists docs, Agent.retrieve_all md5_prefix8 k ts c = (Ok docs, c).
Proof.
  intros Hb Hm. induction ts as [|t ts [docs IH]]; simpl; [eexists; reflexivity|].
  unfold Retriever.hybrid_search at 1, Retriever.bm25_search at 1,
    Retriever.contriever_search at 1.
  rewrite Hb, Hm. simpl. unfold Agent.bind. rewrite IH. eexists. reflexivity.
Qed.

Lemma retrieve_all_unbuilt (md5_prefix8 : string -> string) (k : Z)
    (t : Planner.SubTask) (ts : list Planner.SubTask) (c : Agent.Components) :
  Retriever.index_built (Retriever.bm25_retriever (Agent.retriever c)) = false ->
  Agent.retrieve_all md5_prefix8 k (t :: ts) c = (Exc Retriever.not_built, c).
Proof.
  intro Hb. simpl. unfold Retriever.hybrid_search at 1, Retriever.bm25_search at 1.
  rewrite Hb. reflexivity.
Qed.

Lemma dedup_docs_in (seen docs : list string) (d : string) :
  In d (Agent.dedup_docs seen docs) -> In d docs.
Proof.
  revert seen. induction docs as [|x xs IH]; intro seen; simpl; [tauto|].
  destruct (existsb (String.eqb x) seen).
  - intro H. right. exact (IH _ H).
  - intros [H|H]; [left; exact H | right; exact (IH _ H)].
Qed.

Lemma dedup_docs_fresh (seen docs : list string) (d : string) :
  In d (Agent.dedup_docs seen docs) -> ~ In d seen.
Proof.
  revert seen. induction docs as [|x xs IH]; intros seen H; simpl in H; [contradiction|].
  destruct (existsb (String.eqb x) seen) eqn:E; [exact (IH _ H)|].
  destruct H as [<-|H].
  - intro Hin. apply existsb_eqb_In in Hin. congruence.
  - intro Hin. apply (IH _ H). right. exact Hin.
Qed.

Lemma dedup_docs_nodup (seen docs : list string) : NoDup (Agent.dedup_docs seen docs).
Proof.
  revert seen. induction docs as [|x xs IH]; intro seen; simpl; [constructor|].
  destruct (existsb (String.eqb x) seen); [apply IH|].
  constructor; [|apply IH]. intro H. apply (dedup_docs_fresh _ _ _ H). left. reflexivity.
Qed.

(** *** A run of the [try] block of [process_question] *)

(** The [try] block updates the planner, runs the retrieval of every
    sub-task and stops at its first exception; otherwise it always reaches
    the answer: the graph is built, the fallback result is validated and
    recorded, and nothing is executed. *)
Lemma pipeline_run (md5_prefix8 : string -> string) (repr_reasoning : ReasoningResult -> string)
    (cfg : Agent.Config) (question question_id : string) (c : Agent.Components) :
  let ts := fst (Planner.decompose_task (Agent.planner c) (Planner.parse_question question)) in
  let c1 := Agent.with_planner
              (snd (Planner.decompose_task (Agent.planner c) (Planner.parse_question question))) c in
  let vr := Validator.validate_reasoning_chain (Agent.validator c) [RStep Agent.fallback_result] in
  match Agent.retrieve_all md5_prefix8 (Agent.top_k_retrieval cfg) ts c1 with
  | (Exc e, _) => Agent.pipeline md5_prefix8 repr_reasoning cfg question question_id c = (Exc e, c1)
  | (Ok docs, _) =>
      exists g, GraphBuilder.graph_initialized g = true /\
        Agent.pipeline md5_prefix8 repr_reasoning cfg question question_id c =
          (Ok (AnswerGenerator.generate_answer question_id (repr_reasoning Agent.fallback_result)
                 (Planner.question_type (Planner.parse_question question))
                 (r_confidence Agent.fallback_result * v_confidence (fst vr))
                 (firstn 3 (Agent.dedup_docs [] docs))
                 [RStep Agent.fallback_result; VStep (fst vr)]),
           Agent.with_validator (snd vr) (Agent.with_graph_builder g c1))
  end.
Proof.
  cbn zeta. unfold Agent.pipeline, Agent.bind.
  destruct (Planner.decompose_task (Agent.planner c) (Planner.parse_question question))
    as [ts p] eqn:Ed. cbn [fst snd].
  destruct (Agent.retrieve_all md5_prefix8 (Agent.top_k_retrieval cfg) ts
              (Agent.with_planner p c)) as [[docs|e] c1] eqn:Er;
    pose proof (retrieve_all_state _ _ _ _ _ _ Er) as Hc; subst c1; [|reflexivity].
  destruct (build_graph_ok (Agent.graph_builder (Agent.with_planner p c)) (Agent.dedup_docs [] docs))
    as [g [Hg [Hi _]]].
  exists g. split; [exact Hi|]. rewrite Hg.
  unfold Agent.reasoning_stage, Agent.ret.
  change (Planner.entities (Planner.parse_question question)) with (@nil string).
  cbv iota beta. cbn [Agent.validator Agent.with_graph_builder Agent.with_planner].
  destruct (Validator.validate_reasoning_chain (Agent.validator c) [RStep Agent.fallback_result])
    as [v vs]. cbn [fst snd].
  replace ts with (fst (Planner.decompose_task (Agent.planner c) (Planner.parse_question question)))
    by (rewrite Ed; reflexivity).
  rewrite execution_stage_decompose. reflexivity.
Qed.

Lemma process_question_run (md5_prefix8 : string -> string)
    (repr_reasoning : ReasoningResult -> string) (ag : Agent.MultiHopAgent) (c : Agent.Components)
    (question question_id : string) :
  Agent.system_initialized ag = true -> Agent.components ag = Some c ->
  Agent.process_question md5_prefix8 repr_reasoning ag question question_id =
  (Ok (match fst (Agent.pipeline md5_prefix8 repr_reasoning (Agent.config ag) question question_id c)
       with Ok a => a | Exc e => Agent.error_answer question_id e end),
   Agent.mkAgent (Agent.config ag)
     (Some (snd (Agent.pipeline md5_prefix8 repr_reasoning (Agent.config ag) question question_id c)))
     true).
Proof.
  intros Hi Hc. unfold Agent.process_question. rewrite Hi, Hc. simpl negb. cbv iota.
  destruct (Agent.pipeline _ _ _ _ _ c) as [[a|e] c']; reflexivity.
Qed.

(** *** The orchestrator *)

(** On an initialized orchestrator, [process_question] always returns an
    answer and keeps the system initialized with the same configuration. The
    planner records the question and its sub-tasks in [task_history], even
    when the answer is an error answer; the retriever, the reasoner and the
    executor are never changed. A non-error answer appends exactly one
    result to the validator's history and leaves the graph initialized; an
    error answer leaves the validator as it was. *)
Theorem process_question_state (md5_prefix8 : string -> string)
    (repr_reasoning : ReasoningResult -> string) (ag ag' : Agent.MultiHopAgent)
    (c : Agent.Components) (question question_id : string) (r : Result AnswerGenerator.Answer)
    (Hi : Agent.system_initialized ag = true) (Hc : Agent.components ag = Some c)
    (H : Agent.process_question md5_prefix8 repr_reasoning ag question question_id = (r, ag')) :
  exists a c', r = Ok a /\ ag' = Agent.mkAgent (Agent.config ag) (Some c') true /\
    Planner.task_history (Agent.planner c') =
      (Planner.task_history (Agent.planner c) ++
       [(question, fst (Planner.decompose_task (Agent.planner c) (Planner.parse_question question)))])%list /\
    Agent.retriever c' = Agent.retriever c /\ Agent.reasoner c' = Agent.reasoner c /\
    Agent.executor c' = Agent.executor c /\
    (AnswerGenerator.answer_type a = "error" -> Agent.validator c' = Agent.validator c) /\
    (AnswerGenerator.answer_type a <> "error" ->
       (exists v, Validator.validation_history (Agent.validator c') =
                  (Validator.validation_history (Agent.validator c) ++ [v])%list) /\
       GraphBuilder.graph_initialized (Agent.graph_builder c') = true).
Proof.
  rewrite (process_question_run _ _ _ _ _ _ Hi Hc) in H. injection H as <- <-.
  pose proof (pipeline_run md5_prefix8 repr_reasoning (Agent.config ag) question question_id c) as Hp.
  cbn zeta in Hp.
  destruct (Agent.retrieve_all _ _ _ _) as [[docs|e] c1] eqn:Er.
  - destruct Hp as [g [Hg Hp]]. rewrite Hp. cbn [fst snd].
    eexists _, _. split; [reflexivity | split; [reflexivity|]].
    split; [reflexivity|]. split; [reflexivity|]. split; [reflexivity|]. split; [reflexivity|].
    split.
    + intro Ht. exfalso. exact (classify_not_error question Ht).
    + intros _. split; [eexists; reflexivity | exact Hg].
  - rewrite Hp. cbn [fst snd].
    eexists _, _. split; [reflexivity | split; [reflexivity|]].
    split; [reflexivity|]. split; [reflexivity|]. split; [reflexivity|]. split; [reflexivity|].
    split; [reflexivity|]. intro Ht. exfalso. apply Ht. reflexivity.
Qed.

Lemma process_question_state_witness :
  exists c r ag',
    Agent.system_initialized example_agent = true /\ Agent.components example_agent = Some c /\
    Agent.process_question (fun s => s) reasoning_type example_agent
      "Who developed the Theory of Relativity?" "q1" = (r, ag') /\
    exists a, r = Ok a.
Proof.
  destruct (Agent.components example_agent) as [c|] eqn:Ec;
    [|vm_compute in Ec; discriminate Ec].
  destruct (Agent.process_question (fun s => s) reasoning_type example_agent
              "Who developed the Theory of Relativity?" "q1") as [r ag'] eqn:E.
  assert (Hi : Agent.system_initialized example_agent = true) by (vm_compute; reflexivity).
  destruct (process_question_state (fun s => s) reasoning_type example_agent ag' c
              "Who developed the Theory of Relativity?" "q1" r Hi Ec E) as [a [c' [Hr _]]].
  exists c, r, ag'. split; [exact Hi | split; [reflexivity | split; [reflexivity|]]].
  exists a. exact Hr.
Defined.

Lemma firstn_in {A} (n : nat) (l : list A) (x : A) : In x (firstn n l) -> In x l.
Proof. intro Hx. rewrite <- (firstn_skipn n l). apply in_or_app. left. exact Hx. Qed.

(** The evidence of an answer holds at most three documents, pairwise
    distinct, each of them one of the retriever's documents. *)
Theorem process_question_evidence (md5_prefix8 : string -> string)
    (repr_reasoning : ReasoningResult -> string) (ag ag' : Agent.MultiHopAgent)
    (c : Agent.Components) (question question_id : string) (a : AnswerGenerator.Answer)
    (Hi : Agent.system_initialized ag = true) (Hc : Agent.components ag = Some c)
    (H : Agent.process_question md5_prefix8 repr_reasoning ag question question_id = (Ok a, ag')) :
  (List.length (AnswerGenerator.evidence a) <= 3)%nat /\ NoDup (AnswerGenerator.evidence a) /\
  incl (AnswerGenerator.evidence a)
    (Retriever.bm25_documents (Retriever.bm25_retriever (Agent.retriever c))
     ++ Retriever.documents (Agent.retriever c)).
Proof.
  rewrite (process_question_run _ _ _ _ _ _ Hi Hc) in H. injection H as Ha _.
  pose proof (pipeline_run md5_prefix8 repr_reasoning (Agent.config ag) question question_id c) as Hp.
  cbn zeta in Hp.
  destruct (Agent.retrieve_all _ _ _ _) as [[docs|e] c1] eqn:Er.
  - destruct Hp as [g [_ Hp]]. rewrite Hp in Ha. cbn [fst] in Ha. subst a.
    cbn [AnswerGenerator.generate_answer AnswerGenerator.evidence].
    split; [apply firstn_le_length|]. split; [apply RetrieverFacts.nodup_firstn, dedup_docs_nodup|].
    intros d Hd. apply firstn_in, dedup_docs_in in Hd.
    exact (retrieve_all_docs _ _ _ _ _ _ Er d Hd).
  - rewrite Hp in Ha. cbn [fst] in Ha. subst a. cbn.
    split; [lia | split; [constructor | intros d []]].
Qed.

Lemma process_question_evidence_witness :
  exists c a ag',
    Agent.system_initialized example_agent = true /\ Agent.components example_agent = Some c /\
    Agent.process_question (fun s => s) reasoning_type example_agent
      "Who developed the Theory of Relativity?" "q1" = (Ok a, ag') /\
    (List.length (AnswerGenerator.evidence a) <= 3)%nat.
Proof.
  destruct (Agent.components example_agent) as [c|] eqn:Ec;
    [|vm_compute in Ec; discriminate Ec].
  destruct (Agent.process_question (fun s => s) reasoning_type example_agent
              "Who developed the Theory of Relativity?" "q1") as [[a|e] ag'] eqn:E;
    [|vm_compute in E; discriminate E].
  assert (Hi : Agent.system_initialized example_agent = true) by (vm_compute; reflexivity).
  destruct (process_question_evidence (fun s => s) reasoning_type example_agent ag' c
              "Who developed the Theory of Relativity?" "q1" a Hi Ec E) as [Hl _].
  exists c, a, ag'. split; [exact Hi | split; [reflexivity | split; [reflexivity | exact Hl]]].
Defined.

Lemma process_question_unbuilt (md5_prefix8 : string -> string)
    (repr_reasoning : ReasoningResult -> string) (ag : Agent.MultiHopAgent) (c : Agent.Components)
    (question question_id : string) :
  Agent.system_initialized ag = true -> Agent.components ag = Some c ->
  Retriever.index_built (Retriever.bm25_retriever (Agent.retriever c)) = false ->
  exists c', Agent.process_question md5_prefix8 repr_reasoning ag question question_id =
               (Ok (Agent.error_answer question_id Retriever.not_built),
                Agent.mkAgent (Agent.config ag) (Some c') true) /\
             Agent.retriever c' = Agent.retriever c.
Proof.
  intros Hi Hc Hb. rewrite (process_question_run _ _ _ _ _ _ Hi Hc).
  pose proof (pipeline_run md5_prefix8 repr_reasoning (Agent.config ag) question question_id c) as Hp.
  cbn zeta in Hp.
  destruct (decompose_task_nonempty (Agent.planner c) (Planner.parse_question question))
    as [t [ts Ets]].
  rewrite Ets in Hp. rewrite retrieve_all_unbuilt in Hp by exact Hb.
  rewrite Hp. eexists. split; reflexivity.
Qed.

Lemma process_question_ready (md5_prefix8 : string -> string)
    (repr_reasoning : ReasoningResult -> string) (ag : Agent.MultiHopAgent) (c : Agent.Components)
    (question question_id : string) :
  Agent.system_initialized ag = true -> Agent.components ag = Some c ->
  Retriever.index_built (Retriever.bm25_retriever (Agent.retriever c)) = true ->
  Retriever.model_loaded (Retriever.contriever_retriever (Agent.retriever c)) = true ->
  exists a c', Agent.process_question md5_prefix8 repr_reasoning ag question question_id =
                 (Ok a, Agent.mkAgent (Agent.config ag) (Some c') true) /\
    Agent.retriever c' = Agent.retriever c /\
    AnswerGenerator.question_id a = question_id /\
    AnswerGenerator.answer_type a = Planner.classify_question_type question /\
    AnswerGenerator.confidence a == 0 /\
    AnswerGenerator.validation_status a = Some "needs_review" /\
    AnswerGenerator.error a = None /\
    incl (AnswerGenerator.evidence a)
      (Retriever.bm25_documents (Retriever.bm25_retriever (Agent.retriever c))
       ++ Retriever.documents (Agent.retriever c)).
Proof.
  intros Hi Hc Hb Hm. rewrite (process_question_run _ _ _ _ _ _ Hi Hc).
  pose proof (pipeline_run md5_prefix8 repr_reasoning (Agent.config ag) question question_id c) as Hp.
  cbn zeta in Hp.
  match type of Hp with
  | match Agent.retrieve_all ?m ?k ?ts ?c1 with _ => _ end =>
      destruct (retrieve_all_ready m k ts c1 Hb Hm) as [docs Er]
  end.
  rewrite Er in Hp. destruct Hp as [g [_ Hp]]. rewrite Hp. cbn [fst snd].
  eexists _, _. split; [reflexivity|]. split; [reflexivity|].
  cbn [AnswerGenerator.generate_answer AnswerGenerator.question_id AnswerGenerator.answer_type
       AnswerGenerator.confidence AnswerGenerator.validation_status AnswerGenerator.error
       AnswerGenerator.evidence].
  split; [reflexivity|]. split; [reflexivity|].
  split; [vm_compute; reflexivity|]. split; [vm_compute; reflexivity|]. split; [reflexivity|].
  intros d Hd. apply firstn_in, dedup_docs_in in Hd.
  exact (retrieve_all_docs _ _ _ _ _ _ Er d Hd).
Qed.

Lemma batch_unbuilt (md5_prefix8 : string -> string) (repr_reasoning : ReasoningResult -> string)
    (qs : list Agent.QuestionData) :
  forall ag c, Agent.system_initialized ag = true -> Agent.components ag = Some c ->
  Retriever.index_built (Retriever.bm25_retriever (Agent.retriever c)) = false ->
  fst (Agent.process_questions_batch md5_prefix8 repr_reasoning ag qs) =
    Ok (map (fun qd => Agent.error_answer (Agent.get_or (Agent.qd_id qd) "unknown")
                         Retriever.not_built) qs).
Proof.
  induction qs as [|qd qs IH]; intros ag c Hi Hc Hb; [reflexivity|]. simpl.
  destruct (process_question_unbuilt md5_prefix8 repr_reasoning ag c
              (Agent.get_or (Agent.qd_question qd) "") (Agent.get_or (Agent.qd_id qd) "unknown")
              Hi Hc Hb) as [c' [E Hr]].
  rewrite E.
  assert (IH' := IH (Agent.mkAgent (Agent.config ag) (Some c') true) c' eq_refl eq_refl
                    ltac:(rewrite Hr; exact Hb)).
  destruct (Agent.process_questions_batch _ _ _ qs) as [[res|e] ag2]; cbn [fst] in IH' |- *;
    [injection IH' as ->; reflexivity | discriminate IH'].
Qed.

Lemma batch_ready (md5_prefix8 : string -> string) (repr_reasoning : ReasoningResult -> string)
    (D : list string) (qs : list Agent.QuestionData) :
  forall ag c, Agent.system_initialized ag = true -> Agent.components ag = Some c ->
  Retriever.index_built (Retriever.bm25_retriever (Agent.retriever c)) = true ->
  Retriever.model_loaded (Retriever.contriever_retriever (Agent.retriever c)) = true ->
  incl (Retriever.bm25_documents (Retriever.bm25_retriever (Agent.retriever c))
        ++ Retriever.documents (Agent.retriever c)) D ->
  exists answers ag', Agent.process_questions_batch md5_prefix8 repr_reasoning ag qs = (Ok answers, ag') /\
    Forall2 (fun qd a =>
      AnswerGenerator.question_id a = Agent.get_or (Agent.qd_id qd) "unknown" /\
      AnswerGenerator.answer_type a =
        Planner.classify_question_type (Agent.get_or (Agent.qd_question qd) "") /\
      AnswerGenerator.confidence a == 0 /\
      AnswerGenerator.validation_status a = Some "needs_review" /\
      AnswerGenerator.error a = None /\
      incl (AnswerGenerator.evidence a) D) qs answers.
Proof.
  induction qs as [|qd qs IH]; intros ag c Hi Hc Hb Hm HD.
  - exists [], ag. split; [reflexivity | constructor].
  - simpl.
    destruct (process_question_ready md5_prefix8 repr_reasoning ag c
                (Agent.get_or (Agent.qd_question qd) "") (Agent.get_or (Agent.qd_id qd) "unknown")
                Hi Hc Hb Hm) as [a [c' [E [Hr [H1 [H2 [H3 [H4 [H5 H6]]]]]]]]].
    rewrite E.
    destruct (IH (Agent.mkAgent (Agent.config ag) (Some c') true) c' eq_refl eq_refl
                 ltac:(rewrite Hr; exact Hb) ltac:(rewrite Hr; exact Hm)
                 ltac:(rewrite Hr; exact HD)) as [answers [ag' [Eb Hf]]].
    rewrite Eb. exists (a :: answers), ag'. split; [reflexivity|].
    constructor; [|exact Hf].
    repeat split; try assumption. eapply incl_tran; [exact H6 | exact HD].
Qed.

(** An orchestrator initialized without documents ([None] or an empty list)
    answers every question of a batch with the error answer of the
    unbuilt BM25 index, in order and with the question's id (or
    "unknown"). *)
Theorem process_questions_batch_without_documents (md5_prefix8 : string -> string)
    (repr_reasoning : ReasoningResult -> string) (ag : Agent.MultiHopAgent)
    (qs : list Agent.QuestionData) :
  let expected := map (fun qd => Agent.error_answer (Agent.get_or (Agent.qd_id qd) "unknown")
                                   Retriever.not_built) qs in
  fst (Agent.process_questions_batch md5_prefix8 repr_reasoning
         (Agent.initialize_system ag None) qs) = Ok expected /\
  fst (Agent.process_questions_batch md5_prefix8 repr_reasoning
         (Agent.initialize_system ag (Some [])) qs) = Ok expected /\
  Forall (fun a => AnswerGenerator.answer_type a = "error" /\
                   AnswerGenerator.answer a = "Error: Index not built. Call build_index() first.")
    expected.
Proof.
  cbn zeta. split; [|split].
  - eapply batch_unbuilt; reflexivity.
  - eapply batch_unbuilt; reflexivity.
  - apply Forall_forall. intros a Ha. apply in_map_iff in Ha as [qd [<- _]].
    split; reflexivity.
Qed.

(** An orchestrator initialized with a non-empty document list answers
    every question of a batch without error, one answer per question in
    order: the answer carries the question's id (or "unknown") and its
    question type, confidence 0.0, status "needs_review", no error, and
    evidence drawn from the given documents. *)
Theorem process_questions_batch_with_documents (md5_prefix8 : string -> string)
    (repr_reasoning : ReasoningResult -> string) (ag : Agent.MultiHopAgent)
    (d : string) (ds : list string) (qs : list Agent.QuestionData) :
  exists answers ag',
    Agent.process_questions_batch md5_prefix8 repr_reasoning
      (Agent.initialize_system ag (Some (d :: ds))) qs = (Ok answers, ag') /\
    Forall2 (fun qd a =>
      AnswerGenerator.question_id a = Agent.get_or (Agent.qd_id qd) "unknown" /\
      AnswerGenerator.answer_type a =
        Planner.classify_question_type (Agent.get_or (Agent.qd_question qd) "") /\
      AnswerGenerator.confidence a == 0 /\
      AnswerGenerator.validation_status a = Some "needs_review" /\
      AnswerGenerator.error a = None /\
      incl (AnswerGenerator.evidence a) (d :: ds)) qs answers.
Proof.
  eapply batch_ready; try reflexivity.
  cbn. intros x Hx. change (In x ((d :: ds) ++ (d :: ds))) in Hx.
  apply in_app_or in Hx as [Hx|Hx]; exact Hx.
Qed.

(** *** Rounding of the reported confidence *)

Lemma py_round3_spec (x : Q) :
  exists n : Z, AnswerGenerator.py_round3 x = inject_Z n / 1000 /\
    x * 1000 - (1 # 2) <= inject_Z n /\ inject_Z n <= x * 1000 + (1 # 2) /\
    (forall m : Z, x * 1000 == inject_Z m + (1 # 2) -> Z.even n = true).
Proof.
  unfold AnswerGenerator.py_round3.
  assert (Hfl : (Qnum (x * 1000) / Zpos (Qden (x * 1000)))%Z = Qfloor (x * 1000))
    by (destruct (x * 1000); reflexivity).
  rewrite Hfl. set (fl := Qfloor (x * 1000)).
  assert (H0 : inject_Z fl <= x * 1000) by apply Qfloor_le.
  assert (H1 : x * 1000 < inject_Z (fl + 1)) by apply Qlt_floor.
  rewrite inject_Z_plus in H1. change (inject_Z 1) with 1 in H1.
  assert (Hs : inject_Z (fl + 1) = inject_Z fl + 1) by (rewrite inject_Z_plus; reflexivity).
  (* at a tie, the floor is the integer below it *)
  assert (Htie : forall m : Z, x * 1000 == inject_Z m + (1 # 2) -> fl = m).
  { intros m Hm.
    assert (Ha : ~ (m + 1 <= fl)%Z).
    { intro Hle. rewrite Zle_Qle, inject_Z_plus in Hle. change (inject_Z 1) with 1 in Hle. lra. }
    assert (Hb : ~ (fl + 1 <= m)%Z).
    { intro Hle. rewrite Zle_Qle, inject_Z_plus in Hle. change (inject_Z 1) with 1 in Hle. lra. }
    lia. }
  eexists. split; [reflexivity|].
  destruct (Qlt_bool (x * 1000 - inject_Z fl) (1 # 2)) eqn:E1.
  - apply Qlt_bool_iff in E1. split; [lra | split; [lra|]].
    intros m Hm. exfalso. rewrite (Htie m Hm) in E1. lra.
  - assert (E1' : ~ x * 1000 - inject_Z fl < 1 # 2) by (rewrite <- Qlt_bool_iff, E1; discriminate).
    apply Qnot_lt_le in E1'.
    destruct (Qlt_bool (1 # 2) (x * 1000 - inject_Z fl)) eqn:E2.
    + apply Qlt_bool_iff in E2. rewrite Hs. split; [lra | split; [lra|]].
      intros m Hm. exfalso. rewrite (Htie m Hm) in E2. lra.
    + assert (E2' : ~ 1 # 2 < x * 1000 - inject_Z fl) by (rewrite <- Qlt_bool_iff, E2; discriminate).
      apply Qnot_lt_le in E2'.
      destruct (Z.even fl) eqn:Ev.
      * split; [lra | split; [lra|]]. intros _ _. exact Ev.
      * rewrite Hs. split; [lra | split; [lra|]]. intros _ _.
        rewrite Z.even_add, Ev. reflexivity.
Qed.


(** The reported confidence is the given one rounded to three decimals: a
    multiple of 0.001 nearest to it (so within 0.0005 of it), the even
    multiple at a tie; the status is decided on the unrounded value,
    "validated" exactly above 0.7. *)
Theorem generate_answer_confidence (question_id answer question_type : string) (confidence : Q)
    (evidence : list string) (reasoning_steps : list Step) :
  let a := AnswerGenerator.generate_answer question_id answer question_type confidence
             evidence reasoning_steps in
  (exists n : Z, AnswerGenerator.confidence a = inject_Z n / 1000 /\
     (forall k : Z, Qabs (AnswerGenerator.confidence a - confidence)
                      <= Qabs (inject_Z k / 1000 - confidence)) /\
     (forall m : Z, confidence * 1000 == inject_Z m + (1 # 2) -> Z.even n = true)) /\
  confidence - (1 # 2000) <= AnswerGenerator.confidence a /\
  AnswerGenerator.confidence a <= confidence + (1 # 2000) /\
  (AnswerGenerator.validation_status a = Some "validated" <-> 7 # 10 < confidence) /\
  (AnswerGenerator.validation_status a = Some "needs_review" <-> ~ 7 # 10 < confidence).
Proof.
  cbn zeta. cbn [AnswerGenerator.generate_answer AnswerGenerator.confidence
                 AnswerGenerator.validation_status].
  destruct (py_round3_spec confidence) as [n [Hr [Hlo [Hhi Hev]]]].
  rewrite Hr.
  assert (Hd : forall z : Z, inject_Z z / 1000 - confidence == (inject_Z z - confidence * 1000) * (1 # 1000)).
  { intro z. field. }
  assert (Hlo' : confidence - (1 # 2000) <= inject_Z n / 1000).
  { apply Qle_shift_div_l; [reflexivity|]. lra. }
  assert (Hhi' : inject_Z n / 1000 <= confidence + (1 # 2000)).
  { apply Qle_shift_div_r; [reflexivity|]. lra. }
  split; [|split; [exact Hlo' | split; [exact Hhi'|]]].
  - exists n. split; [reflexivity | split; [|exact Hev]].
    intro k. rewrite (Hd n), (Hd k), !Qabs_Qmult.
    change (Qabs (1 # 1000)) with (1 # 1000).
    apply Qmult_le_r; [reflexivity|].
    (* an integer is at least as far from the target as the rounded one *)
    destruct (Z.le_gt_cases k n) as [Hk|Hk].
    + destruct (Z.eq_dec k n) as [->|Hne]; [apply Qle_refl|].
      assert (Hk1 : (k + 1 <= n)%Z) by lia.
      rewrite Zle_Qle, inject_Z_plus in Hk1. change (inject_Z 1) with 1 in Hk1.
      apply Qabs_case; intro Ha; apply Qabs_case; intro Hb; lra.
    + assert (Hk1 : (n + 1 <= k)%Z) by lia.
      rewrite Zle_Qle, inject_Z_plus in Hk1. change (inject_Z 1) with 1 in Hk1.
      apply Qabs_case; intro Ha; apply Qabs_case; intro Hb; lra.
  - rewrite <- Qlt_bool_iff. destruct (Qlt_bool (7 # 10) confidence); split; split;
      intro H; try reflexivity; try discriminate; try contradiction; exfalso; auto.
Qed.


(** *** Reasoner *)

Lemma execute_cypher_query_connected (x : Reasoner.Reasoner) (query : string) :
  Reasoner.graph_connected x = true -> exists row, Reasoner.execute_cypher_query x query = Ok [row].
Proof.
  intro H. unfold Reasoner.execute_cypher_query. rewrite H. simpl.
  destruct (_ && _); [|destruct (_ && _)]; eexists; reflexivity.
Qed.

(** A Cypher query raises exactly on a disconnected reasoner and otherwise
    returns one row. Multi-hop reasoning connects first (keeping the URI):
    afterwards the reasoner is connected, and the result is an [IndexError]
    for no entity, an entity lookup of confidence 0.9 for one entity, and a
    path search from the first to the last entity, of confidence 0.85, for
    two or more; each holds a single row. *)
Theorem perform_multi_hop_reasoning_outcome (x : Reasoner.Reasoner) (es rs : list string) :
  (forall query, is_exc (Reasoner.execute_cypher_query x query) =
                 negb (Reasoner.graph_connected x)) /\
  (forall query, Reasoner.graph_connected x = true ->
     exists row, Reasoner.execute_cypher_query x query = Ok [row]) /\
  let (r, x') := Reasoner.perform_multi_hop_reasoning x es rs in
  Reasoner.graph_connected x' = true /\ Reasoner.neo4j_uri x' = Reasoner.neo4j_uri x /\
  match es with
  | [] => r = Exc Reasoner.index_error
  | [e0] => exists row, r = Ok (EntityLookup e0 [row] (9 # 10))
  | s :: _ :: _ => exists row, r = Ok (PathFinding s (last es "") [row] (85 # 100))
  end.
Proof.
  split.
  - intro query. unfold Reasoner.execute_cypher_query.
    destruct (Reasoner.graph_connected x); simpl; [|reflexivity].
    destruct (_ && _); [|destruct (_ && _)]; reflexivity.
  - split; [intros query H; exact (execute_cypher_query_connected x query H)|].
    assert (Hc : Reasoner.graph_connected (Reasoner.ensure_connected x) = true).
    { unfold Reasoner.ensure_connected. destruct (Reasoner.graph_connected x) eqn:E;
        [exact E | reflexivity]. }
    assert (Hu : Reasoner.neo4j_uri (Reasoner.ensure_connected x) = Reasoner.neo4j_uri x).
    { unfold Reasoner.ensure_connected. destruct (Reasoner.graph_connected x); reflexivity. }
    assert (Hc2 : Reasoner.ensure_connected (Reasoner.ensure_connected x) =
                  Reasoner.ensure_connected x).
    { unfold Reasoner.ensure_connected at 1. rewrite Hc. reflexivity. }
    unfold Reasoner.perform_multi_hop_reasoning, Reasoner.find_path_between_entities.
    rewrite Hc2.
    destruct es as [|e0 [|e1 es]]; simpl.
    + split; [exact Hc | split; [exact Hu | reflexivity]].
    + match goal with |- context [Reasoner.execute_cypher_query ?y ?q] =>
        destruct (execute_cypher_query_connected y q Hc) as [row E]; rewrite E end.
      split; [exact Hc | split; [exact Hu | exists row; reflexivity]].
    + match goal with |- context [Reasoner.execute_cypher_query ?y ?q] =>
        destruct (execute_cypher_query_connected y q Hc) as [row E]; rewrite E end.
      split; [exact Hc | split; [exact Hu | exists row; reflexivity]].
Qed.

(** *** Graph builder *)

Lemma extract_triples_length (text : string) :
  (List.length (GraphBuilder.extract_triples text) <= 3)%nat.
Proof.
  unfold GraphBuilder.extract_triples.
  destruct (contains text "Albert Einstein"); [simpl; lia|].
  destruct (contains text "Marie Curie"); [simpl; lia|].
  destruct (3 <=? List.length (split_ws text))%nat; simpl; lia.
Qed.

Lemma flat_map_extract_triples_length (docs : list string) :
  (List.length (flat_map GraphBuilder.extract_triples docs) <= 3 * List.length docs)%nat.
Proof.
  induction docs as [|d docs IH]; simpl; [lia|].
  rewrite length_app. pose proof (extract_triples_length d). lia.
Qed.

(** [store_triples] raises before [initialize_graph]; building the graph
    from documents never raises: it initializes the graph when needed
    (keeping its URI) and returns the triples of every document in order,
    at most three per document. *)
Theorem build_graph_from_documents_outcome (g : GraphBuilder.GraphBuilder) (docs : list string) :
  (GraphBuilder.graph_initialized g = false ->
     forall triples, is_exc (GraphBuilder.store_triples g triples) = true) /\
  exists g',
    GraphBuilder.build_graph_from_documents g docs =
      (Ok (flat_map GraphBuilder.extract_triples docs), g') /\
    GraphBuilder.graph_initialized g' = true /\
    GraphBuilder.neo4j_uri g' = GraphBuilder.neo4j_uri g /\
    Forall (fun d => List.length (GraphBuilder.extract_triples d) <= 3)%nat docs /\
    (List.length (flat_map GraphBuilder.extract_triples docs) <= 3 * List.length docs)%nat.
Proof.
  split.
  - intros H triples. unfold GraphBuilder.store_triples. rewrite H. reflexivity.
  - destruct (build_graph_ok g docs) as [g' [E [Hi Hu]]].
    exists g'. split; [exact E | split; [exact Hi | split; [exact Hu|]]].
    split; [|apply flat_map_extract_triples_length].
    apply Forall_forall. intros d _. apply extract_triples_length.
Qed.

